(** * GitHub account strength analyzer: scoring engine

    A shallow embedding of [GitHub-Analyzer/github_analyzer.py]:
    [analyze_profile_completeness], [analyze_repository_quality],
    [analyze_activity_consistency] and the aggregation and recommendation
    part of [main].

    Modelling choices.
    - The dictionaries decoded from the GitHub JSON payload are finite maps
      from field names to Python values; the fields the analyzer reads hold
      JSON scalars ([None], booleans, integers, strings).
    - Python exceptions and the wall clock are explicit: a computation takes
      the number of clock readings made so far and either raises or returns
      a value with the new number of readings.  [datetime.now()] is the only
      operation that advances it.
    - A naive [datetime] is the number of microseconds since
      0001-01-01T00:00:00; a [timedelta] is a number of microseconds.
    - [datetime.strptime] with the format of the source is a function of the
      library, taken as a parameter ([None] stands for [ValueError]).
    - Python's binary64 [float] arithmetic (the documentation percentage and
      the products [repo_count * 0.5], [repo_count * 0.3]) is carried out in
      exact rationals.  Module [Binary64] evaluates the same expressions
      with primitive floats and shows that every bucket decision coincides
      for all collections of up to 100 records, the page size requested by
      [get_github_data].
    - An f-string is kept as the sequence of its literal and formatted
      parts.
    - [display_strength_meter] is modelled on the primitive binary64 floats
      themselves (module [Meter]). *)

From Stdlib Require Import ZArith QArith String Ascii List Lia Floats Uint63.
From stdpp Require Import base option list gmap strings.

Open Scope Z_scope.

(** ** Python values *)

Inductive value : Type :=
| VNone
| VBool (b : bool)
| VInt (z : Z)
| VStr (s : string).

#[global] Instance value_eq_dec : EqDecision value.
Proof. solve_decision. Defined.

Definition value_encode (v : value) : unit + bool + Z + string :=
  match v with
  | VNone => inl (inl (inl tt))
  | VBool b => inl (inl (inr b))
  | VInt z => inl (inr z)
  | VStr s => inr s
  end.

Definition value_decode (x : unit + bool + Z + string) : value :=
  match x with
  | inl (inl (inl _)) => VNone
  | inl (inl (inr b)) => VBool b
  | inl (inr z) => VInt z
  | inr s => VStr s
  end.

#[global] Instance value_countable : Countable value.
Proof.
  apply (inj_countable' value_encode value_decode).
  intros []; reflexivity.
Defined.

Abbreviation dict := (gmap string value).

(** [bool(v)] *)
Definition truthy (v : value) : bool :=
  match v with
  | VNone => false
  | VBool b => b
  | VInt z => negb (z =? 0)
  | VStr s => negb (String.eqb s "")
  end.

(** [d.get(k)] and [d.get(k, dflt)] *)
Definition get (d : dict) (k : string) : value := default VNone (d !! k).

Definition get_default (d : dict) (k : string) (dflt : value) : value :=
  default dflt (d !! k).

(** [True == 1] and [False == 0] with equal hashes: a Python set keeps one
    element for both. *)
Definition set_key (v : value) : value :=
  match v with
  | VBool b => VInt (Z.b2z b)
  | _ => v
  end.

Definition len {A : Type} (l : list A) : Z := Z.of_nat (length l).

(** [bool(l)] for a list *)
Definition list_truthy {A : Type} (l : list A) : bool :=
  match l with
  | [] => false
  | _ :: _ => true
  end.

(** ** Exceptions and the clock *)

Inductive exn : Type :=
| TypeError
| KeyError (k : string)
| IndexError
| ValueError.

Definition M (A : Type) : Type := nat -> exn + A * nat.

#[global] Instance M_ret : MRet M := fun A a t => inr (a, t).

#[global] Instance M_bind : MBind M := fun A B f m t =>
  match m t with
  | inl e => inl e
  | inr (a, t') => f a t'
  end.

Definition raise {A : Type} (e : exn) : M A := fun _ => inl e.

(** [d[k]] *)
Definition getitem (d : dict) (k : string) : M value :=
  match d !! k with
  | Some v => mret v
  | None => raise (KeyError k)
  end.

(** [l[0]] *)
Definition first_item {A : Type} (l : list A) : M A :=
  match l with
  | x :: _ => mret x
  | [] => raise IndexError
  end.

(** The operand of an integer [+] or of a comparison with an integer. *)
Definition as_int (v : value) : M Z :=
  match v with
  | VInt z => mret z
  | VBool b => mret (Z.b2z b)
  | _ => raise TypeError
  end.

(** [sum(vs)]: starts from the integer [0] and adds from the left. *)
Fixpoint sum_from (acc : Z) (vs : list value) : M Z :=
  match vs with
  | [] => mret acc
  | v :: vs => z ← as_int v; sum_from (acc + z) vs
  end.

Definition py_sum (vs : list value) : M Z := sum_from 0 vs.

(** [sum(1 for x in xs if c)] where the condition [c] may raise and may read
    the clock: it is evaluated once per element, in order. *)
Fixpoint count_from {A : Type} (acc : Z) (c : A -> M bool) (xs : list A) : M Z :=
  match xs with
  | [] => mret acc
  | x :: xs => b ← c x; count_from (if b : bool then acc + 1 else acc) c xs
  end.

Definition count_if {A : Type} (c : A -> M bool) (xs : list A) : M Z :=
  count_from 0 c xs.

(** [for x in xs: body] over a loop-carried variable. *)
Fixpoint for_each {A St : Type} (xs : list A) (body : A -> St -> M St) (s : St) : M St :=
  match xs with
  | [] => mret s
  | x :: xs => s' ← body x s; for_each xs body s'
  end.

(** ** Dates *)

Definition datetime : Type := Z.
Definition timedelta : Type := Z.

Definition us_per_day : Z := 86400 * 1000000.

(** [timedelta(days=n)] *)
Definition timedelta_days (n : Z) : timedelta := n * us_per_day.

(** [td.days]: a timedelta is normalised with [0 <= seconds < 86400], so the
    day count is the floor. *)
Definition days (td : timedelta) : Z := td / us_per_day.

(** ** Output text *)

Inductive part : Type :=
| Text (s : string)
| Fmt (v : value)
| Fmt1f (q : Q).

Definition fstring : Type := list part.

Module Colors.
Definition ESC : string := String "027"%char EmptyString.
Definition HEADER : string := ESC +:+ "[95m".
Definition OKBLUE : string := ESC +:+ "[94m".
Definition OKCYAN : string := ESC +:+ "[96m".
Definition OKGREEN : string := ESC +:+ "[92m".
Definition WARNING : string := ESC +:+ "[93m".
Definition FAIL : string := ESC +:+ "[91m".
Definition ENDC : string := ESC +:+ "[0m".
Definition BOLD : string := ESC +:+ "[1m".
Definition UNDERLINE : string := ESC +:+ "[4m".
End Colors.

Definition NL : string := String "010"%char EmptyString.

Record analysis : Type := Analysis { score : Z; details : list fstring }.

(** The dictionary returned by [get_github_data]. *)
Record github_data : Type := GithubData {
  user : dict;
  repos : list dict;
  events : list dict
}.

(** What a run of [main] computes after the fetch: its local variables and
    the lines it prints from the recommendations header on. *)
Record report : Type := Report {
  profile_analysis : analysis;
  repo_analysis : analysis;
  activity_analysis : analysis;
  total_score : Z;
  printed : list fstring
}.

(** [print(line)] *)
Definition print (out : list fstring) (line : fstring) : list fstring := out ++ [line].

(** [x >= y] on floats, in exact rationals. *)
Definition Qgeb (x y : Q) : bool := Qle_bool y x.

Section Analyzer.

(** [datetime.strptime(s, '%Y-%m-%dT%H:%M:%SZ')] on a [str]. *)
Variable strptime_fmt : string -> option datetime.

(** The successive readings of the wall clock. *)
Variable clock : nat -> datetime.

Definition now : M datetime := fun t => inr (clock t, S t).

Definition strptime (v : value) : M datetime :=
  match v with
  | VStr s =>
      match strptime_fmt s with
      | Some d => mret d
      | None => raise ValueError
      end
  | _ => raise TypeError
  end.

Definition analyze_profile_completeness (user_data : dict) : M analysis :=
  let score := 0 in
  let details := [] in
  let '(score, details) :=
    if truthy (get user_data "name")
    then (score + 10, details ++ [[Text Colors.OKGREEN; Text "✓ Name provided"; Text Colors.ENDC]])
    else (score, details ++ [[Text Colors.WARNING; Text "✗ Name missing"; Text Colors.ENDC]]) in
  let '(score, details) :=
    if truthy (get user_data "bio")
    then (score + 10, details ++ [[Text Colors.OKGREEN; Text "✓ Bio provided"; Text Colors.ENDC]])
    else (score, details ++ [[Text Colors.WARNING; Text "✗ Bio missing"; Text Colors.ENDC]]) in
  let '(score, details) :=
    if truthy (get user_data "location")
    then (score + 10, details ++ [[Text Colors.OKGREEN; Text "✓ Location provided"; Text Colors.ENDC]])
    else (score, details ++ [[Text Colors.WARNING; Text "✗ Location missing"; Text Colors.ENDC]]) in
  let '(score, details) :=
    if truthy (get user_data "company")
    then (score + 10, details ++ [[Text Colors.OKGREEN; Text "✓ Company provided"; Text Colors.ENDC]])
    else (score, details ++ [[Text Colors.WARNING; Text "✗ Company missing"; Text Colors.ENDC]]) in
  let '(score, details) :=
    if truthy (get user_data "email")
    then (score + 15, details ++ [[Text Colors.OKGREEN; Text "✓ Email provided"; Text Colors.ENDC]])
    else (score, details ++ [[Text Colors.WARNING; Text "✗ Email missing"; Text Colors.ENDC]]) in
  let '(score, details) :=
    if truthy (get user_data "blog")
    then (score + 15, details ++ [[Text Colors.OKGREEN; Text "✓ Website/blog provided"; Text Colors.ENDC]])
    else (score, details ++ [[Text Colors.WARNING; Text "✗ Website/blog missing"; Text Colors.ENDC]]) in
  let '(score, details) :=
    if truthy (get user_data "twitter_username")
    then (score + 15, details ++ [[Text Colors.OKGREEN; Text "✓ Twitter linked"; Text Colors.ENDC]])
    else (score, details ++ [[Text Colors.WARNING; Text "✗ Twitter not linked"; Text Colors.ENDC]]) in
  followers ← as_int (get_default user_data "followers" (VInt 0));
  '(score, details) ←
    (if followers >? 0
     then
       shown ← getitem user_data "followers";
       mret (score + 15,
             details ++ [[Text Colors.OKGREEN; Text "✓ Has followers ("; Fmt shown;
                          Text ")"; Text Colors.ENDC]])
     else
       mret (score, details ++ [[Text Colors.WARNING; Text "✗ No followers"; Text Colors.ENDC]]));
  mret {| score := score; details := details |}.

Definition analyze_repository_quality (repos_data : list dict) : M analysis :=
  if negb (list_truthy repos_data)
  then mret {| score := 0;
               details := [[Text Colors.FAIL; Text "✗ No repositories"; Text Colors.ENDC]] |}
  else
  let score := 0 in
  let details := [] in
  let repo_count := len repos_data in
  let '(score, details) :=
    if repo_count >=? 10
    then (score + 20,
          details ++ [[Text Colors.OKGREEN; Text "✓ Good repository count (";
                       Fmt (VInt repo_count); Text ")"; Text Colors.ENDC]])
    else if repo_count >=? 5
    then (score + 15,
          details ++ [[Text Colors.OKCYAN; Text "○ Moderate repository count (";
                       Fmt (VInt repo_count); Text ")"; Text Colors.ENDC]])
    else (score + 10,
          details ++ [[Text Colors.WARNING; Text "△ Few repositories (";
                       Fmt (VInt repo_count); Text ")"; Text Colors.ENDC]]) in
  documented_repos ← count_if (fun repo => mret (truthy (get repo "description"))) repos_data;
  let doc_percentage := (inject_Z documented_repos / inject_Z repo_count * 100)%Q in
  let '(score, details) :=
    if Qgeb doc_percentage 80
    then (score + 25,
          details ++ [[Text Colors.OKGREEN; Text "✓ Excellent documentation (";
                       Fmt1f doc_percentage; Text "%)"; Text Colors.ENDC]])
    else if Qgeb doc_percentage 60
    then (score + 20,
          details ++ [[Text Colors.OKCYAN; Text "○ Good documentation (";
                       Fmt1f doc_percentage; Text "%)"; Text Colors.ENDC]])
    else (score + 10,
          details ++ [[Text Colors.WARNING; Text "△ Poor documentation (";
                       Fmt1f doc_percentage; Text "%)"; Text Colors.ENDC]]) in
  languages ← for_each repos_data
    (fun repo (languages : gset value) =>
       if truthy (get repo "language")
       then language ← getitem repo "language"; mret ({[ set_key language ]} ∪ languages)
       else mret languages)
    ∅;
  let lang_count := Z.of_nat (size languages) in
  let '(score, details) :=
    if lang_count >=? 5
    then (score + 20,
          details ++ [[Text Colors.OKGREEN; Text "✓ Great language diversity (";
                       Fmt (VInt lang_count); Text " languages)"; Text Colors.ENDC]])
    else if lang_count >=? 3
    then (score + 15,
          details ++ [[Text Colors.OKCYAN; Text "○ Good language diversity (";
                       Fmt (VInt lang_count); Text " languages)"; Text Colors.ENDC]])
    else (score + 10,
          details ++ [[Text Colors.WARNING; Text "△ Limited language diversity (";
                       Fmt (VInt lang_count); Text " languages)"; Text Colors.ENDC]]) in
  total_stars ← py_sum (map (fun repo => get_default repo "stargazers_count" (VInt 0)) repos_data);
  total_forks ← py_sum (map (fun repo => get_default repo "forks_count" (VInt 0)) repos_data);
  let '(score, details) :=
    if total_stars >=? 50
    then (score + 15,
          details ++ [[Text Colors.OKGREEN; Text "✓ Great community engagement (";
                       Fmt (VInt total_stars); Text " stars)"; Text Colors.ENDC]])
    else if total_stars >=? 10
    then (score + 10,
          details ++ [[Text Colors.OKCYAN; Text "○ Good community engagement (";
                       Fmt (VInt total_stars); Text " stars)"; Text Colors.ENDC]])
    else (score + 5,
          details ++ [[Text Colors.WARNING; Text "△ Limited community engagement (";
                       Fmt (VInt total_stars); Text " stars)"; Text Colors.ENDC]]) in
  recent_repos ← count_if
    (fun repo =>
       updated_at ← getitem repo "updated_at";
       updated ← strptime updated_at;
       current ← now;
       mret (updated >? current - timedelta_days 90))
    repos_data;
  let '(score, details) :=
    if Qgeb (inject_Z recent_repos) (inject_Z repo_count * 0.5)
    then (score + 15,
          details ++ [[Text Colors.OKGREEN; Text "✓ Active maintenance (";
                       Fmt (VInt recent_repos); Text " recently updated)"; Text Colors.ENDC]])
    else if Qgeb (inject_Z recent_repos) (inject_Z repo_count * 0.3)
    then (score + 10,
          details ++ [[Text Colors.OKCYAN; Text "○ Moderate maintenance (";
                       Fmt (VInt recent_repos); Text " recently updated)"; Text Colors.ENDC]])
    else (score + 5,
          details ++ [[Text Colors.WARNING; Text "△ Limited maintenance (";
                       Fmt (VInt recent_repos); Text " recently updated)"; Text Colors.ENDC]]) in
  mret {| score := score; details := details |}.

Definition analyze_activity_consistency (events_data : list dict) : M analysis :=
  if negb (list_truthy events_data)
  then mret {| score := 0;
               details := [[Text Colors.FAIL; Text "✗ No recent activity"; Text Colors.ENDC]] |}
  else
  let score := 0 in
  let details := [] in
  let recent_events := len events_data in
  let '(score, details) :=
    if recent_events >=? 50
    then (score + 50,
          details ++ [[Text Colors.OKGREEN; Text "✓ Very active (";
                       Fmt (VInt recent_events); Text " recent events)"; Text Colors.ENDC]])
    else if recent_events >=? 20
    then (score + 40,
          details ++ [[Text Colors.OKCYAN; Text "○ Active (";
                       Fmt (VInt recent_events); Text " recent events)"; Text Colors.ENDC]])
    else (score + 25,
          details ++ [[Text Colors.WARNING; Text "△ Limited activity (";
                       Fmt (VInt recent_events); Text " recent events)"; Text Colors.ENDC]]) in
  let event_types : gset value :=
    list_to_set (map (fun event => set_key (get_default event "type" (VStr ""))) events_data) in
  let type_count := Z.of_nat (size event_types) in
  let '(score, details) :=
    if type_count >=? 5
    then (score + 30,
          details ++ [[Text Colors.OKGREEN; Text "✓ Diverse activity types (";
                       Fmt (VInt type_count); Text " types)"; Text Colors.ENDC]])
    else if type_count >=? 3
    then (score + 20,
          details ++ [[Text Colors.OKCYAN; Text "○ Good activity diversity (";
                       Fmt (VInt type_count); Text " types)"; Text Colors.ENDC]])
    else (score + 15,
          details ++ [[Text Colors.WARNING; Text "△ Limited activity diversity (";
                       Fmt (VInt type_count); Text " types)"; Text Colors.ENDC]]) in
  '(score, details) ←
    (if list_truthy events_data
     then
       newest ← first_item events_data;
       created_at ← getitem newest "created_at";
       latest_event ← strptime created_at;
       current ← now;
       let days_since_last := days (current - latest_event) in
       if days_since_last <=? 7
       then mret (score + 20,
                  details ++ [[Text Colors.OKGREEN; Text "✓ Very recent activity (";
                               Fmt (VInt days_since_last); Text " days ago)"; Text Colors.ENDC]])
       else if days_since_last <=? 30
       then mret (score + 15,
                  details ++ [[Text Colors.OKCYAN; Text "○ Recent activity (";
                               Fmt (VInt days_since_last); Text " days ago)"; Text Colors.ENDC]])
       else mret (score + 10,
                  details ++ [[Text Colors.WARNING; Text "△ Activity not recent (";
                               Fmt (VInt days_since_last); Text " days ago)"; Text Colors.ENDC]])
     else mret (score, details));
  mret {| score := score; details := details |}.

(** The recommendation statements of [main] (lines 343-351 of the source),
    as a function of the variables they read. *)
Definition print_recommendations (out : list fstring)
    (profile_analysis repo_analysis activity_analysis : analysis) : list fstring :=
  let out := print out [Text NL; Text Colors.HEADER; Text Colors.BOLD;
                        Text "💡 RECOMMENDATIONS:"; Text Colors.ENDC] in
  let out :=
    if score profile_analysis <? 80
    then print out [Text "    "; Text Colors.WARNING;
                    Text "• Complete your profile with missing information"; Text Colors.ENDC]
    else out in
  let out :=
    if score repo_analysis <? 80
    then
      let out := print out [Text "    "; Text Colors.WARNING;
                            Text "• Add descriptions to your repositories"; Text Colors.ENDC] in
      print out [Text "    "; Text Colors.WARNING;
                 Text "• Diversify your programming languages"; Text Colors.ENDC]
    else out in
  if score activity_analysis <? 80
  then print out [Text "    "; Text Colors.WARNING;
                  Text "• Increase your GitHub activity and consistency"; Text Colors.ENDC]
  else out.

(** The closing statement of [main] (lines 353-358 of the source). *)
Definition print_closing (out : list fstring) (total_score : Z) : list fstring :=
  if total_score >=? 240
  then print out [Text "    "; Text Colors.OKGREEN;
                  Text "🎉 Excellent GitHub presence! Keep up the great work!"; Text Colors.ENDC]
  else if total_score >=? 180
  then print out [Text "    "; Text Colors.OKCYAN;
                  Text "👍 Good GitHub presence with room for improvement"; Text Colors.ENDC]
  else print out [Text "    "; Text Colors.WARNING;
                  Text "📈 Focus on building a stronger GitHub presence"; Text Colors.ENDC].

(** [main] from the three analyses on (lines 312-358 of the source).  The
    banner, the prompts, the fetch and the strength meters drawn before the
    recommendations are terminal rendering and are left out. *)
Definition main (data : github_data) : M report :=
  profile_analysis ← analyze_profile_completeness (user data);
  repo_analysis ← analyze_repository_quality (repos data);
  activity_analysis ← analyze_activity_consistency (events data);
  let total_score := score profile_analysis + score repo_analysis + score activity_analysis in
  let max_total := 300 in
  let out := print_recommendations [] profile_analysis repo_analysis activity_analysis in
  let out := print_closing out total_score in
  mret {| profile_analysis := profile_analysis;
          repo_analysis := repo_analysis;
          activity_analysis := activity_analysis;
          total_score := total_score;
          printed := out |}.

End Analyzer.

(** ** A parser for the timestamps of the API

    [iso8601] reads the fixed-width form [YYYY-MM-DDTHH:MM:SSZ] in which
    GitHub writes [updated_at] and [created_at], and returns what
    [datetime.strptime] returns on it.  The library function also accepts
    fields written with one digit; the examples below do not use them. *)

Module Iso8601.

Definition is_leap (y : Z) : bool :=
  ((y mod 4 =? 0) && negb (y mod 100 =? 0)) || (y mod 400 =? 0).

Definition days_before_year (y : Z) : Z :=
  let y := y - 1 in y * 365 + y / 4 - y / 100 + y / 400.

Definition days_in_month (y m : Z) : Z :=
  if m =? 2 then (if is_leap y then 29 else 28)
  else if (m =? 4) || (m =? 6) || (m =? 9) || (m =? 11) then 30
  else 31.

Fixpoint days_before_month_from (y : Z) (m : nat) : Z :=
  match m with
  | O => 0
  | S m' => days_before_month_from y m' + days_in_month y (Z.of_nat m)
  end.

Definition days_before_month (y m : Z) : Z :=
  days_before_month_from y (Z.to_nat (m - 1)).

(** The proleptic Gregorian ordinal, 0001-01-01 being day 1. *)
Definition ymd2ord (y m d : Z) : Z :=
  days_before_year y + days_before_month y m + d.

Definition digit (c : ascii) : option Z :=
  let n := Z.of_nat (nat_of_ascii c) in
  if (48 <=? n) && (n <=? 57) then Some (n - 48) else None.

Fixpoint number_from (acc : Z) (cs : list ascii) : option Z :=
  match cs with
  | [] => Some acc
  | c :: cs =>
      match digit c with
      | Some d => number_from (10 * acc + d) cs
      | None => None
      end
  end.

Definition field (s : string) (start width : nat) : option Z :=
  let cs := list_ascii_of_string (substring start width s) in
  if Nat.eqb (length cs) width then number_from 0 cs else None.

Definition separators_ok (s : string) : bool :=
  String.eqb (substring 4 1 s) "-" && String.eqb (substring 7 1 s) "-" &&
  String.eqb (substring 10 1 s) "T" && String.eqb (substring 13 1 s) ":" &&
  String.eqb (substring 16 1 s) ":" && String.eqb (substring 19 1 s) "Z".

Definition mk_datetime (y m d hh mm ss : Z) : option datetime :=
  if (1 <=? y) && (y <=? 9999) && (1 <=? m) && (m <=? 12) &&
     (1 <=? d) && (d <=? days_in_month y m) &&
     (hh <=? 23) && (mm <=? 59) && (ss <=? 59)
  then Some (((((ymd2ord y m d - 1) * 24 + hh) * 60 + mm) * 60 + ss) * 1000000)
  else None.

Definition iso8601 (s : string) : option datetime :=
  if Nat.eqb (String.length s) 20 && separators_ok s
  then
    y ← field s 0 4; m ← field s 5 2; d ← field s 8 2;
    hh ← field s 11 2; mm ← field s 14 2; ss ← field s 17 2;
    mk_datetime y m d hh mm ss
  else None.

End Iso8601.

(** ** The scoring tables of the specification

    The buckets as the specification words them, on exact integers: a ratio
    [a / b >= p / 100] with [b > 0] is [100 * a >= p * b]. *)

Definition count_points (repo_count : Z) : Z :=
  if 10 <=? repo_count then 20 else if 5 <=? repo_count then 15 else 10.

Definition documentation_points (documented total : Z) : Z :=
  if 80 * total <=? 100 * documented then 25
  else if 60 * total <=? 100 * documented then 20
  else 10.

Definition language_points (distinct : Z) : Z :=
  if 5 <=? distinct then 20 else if 3 <=? distinct then 15 else 10.

Definition star_points (stars : Z) : Z :=
  if 50 <=? stars then 15 else if 10 <=? stars then 10 else 5.

Definition recency_points (recent total : Z) : Z :=
  if 5 * total <=? 10 * recent then 15
  else if 3 * total <=? 10 * recent then 10
  else 5.

Definition repository_points (total documented distinct stars recent : Z) : Z :=
  count_points total + documentation_points documented total +
  language_points distinct + star_points stars + recency_points recent total.

Definition volume_points (event_count : Z) : Z :=
  if 50 <=? event_count then 50 else if 20 <=? event_count then 40 else 25.

Definition diversity_points (distinct : Z) : Z :=
  if 5 <=? distinct then 30 else if 3 <=? distinct then 20 else 15.

Definition freshness_points (age_days : Z) : Z :=
  if age_days <=? 7 then 20 else if age_days <=? 30 then 15 else 10.

Definition activity_points (event_count distinct age_days : Z) : Z :=
  volume_points event_count + diversity_points distinct + freshness_points age_days.

(** One point entry of the profile table. *)
Definition field_points (user_data : dict) (k : string) (points : Z) : Z :=
  if truthy (get user_data k) then points else 0.

Definition int_like (v : value) : bool :=
  match v with
  | VInt _ | VBool _ => true
  | _ => false
  end.

Definition int_of (v : value) : Z :=
  match v with
  | VInt z => z
  | VBool b => Z.b2z b
  | _ => 0
  end.

Definition followers_points (user_data : dict) : Z :=
  if int_of (get_default user_data "followers" (VInt 0)) >? 0 then 15 else 0.

Definition profile_points (user_data : dict) : Z :=
  field_points user_data "name" 10 + field_points user_data "bio" 10 +
  field_points user_data "location" 10 + field_points user_data "company" 10 +
  field_points user_data "email" 15 + field_points user_data "blog" 15 +
  field_points user_data "twitter_username" 15 + followers_points user_data.

(** The measurements of a repository collection. *)
Definition documented (repos_data : list dict) : Z :=
  len (List.filter (fun repo => truthy (get repo "description")) repos_data).

Definition language_keys (repos_data : list dict) : list value :=
  map set_key (List.filter truthy (map (fun repo => get repo "language") repos_data)).

Definition distinct_languages (repos_data : list dict) : Z :=
  len (remove_dups (language_keys repos_data)).

Definition sum_ints (vs : list value) : Z :=
  fold_right (fun v acc => int_of v + acc) 0 vs.

Definition star_values (repos_data : list dict) : list value :=
  map (fun repo => get_default repo "stargazers_count" (VInt 0)) repos_data.

Definition fork_values (repos_data : list dict) : list value :=
  map (fun repo => get_default repo "forks_count" (VInt 0)) repos_data.

Definition total_stars (repos_data : list dict) : Z := sum_ints (star_values repos_data).

Definition event_type_keys (events_data : list dict) : list value :=
  map (fun event => set_key (get_default event "type" (VStr ""))) events_data.

Definition distinct_event_types (events_data : list dict) : Z :=
  len (remove_dups (event_type_keys events_data)).

(** Two collections whose records agree on every field but [k]. *)
Definition differ_only_in (k : string) (xs ys : list dict) : Prop :=
  Forall2 (fun x y => delete k x = delete k y) xs ys.

Section Measures.

Variable strptime_fmt : string -> option datetime.
Variable clock : nat -> datetime.

(** The parsed timestamp stored under [k], if there is a parseable one. *)
Definition timestamp_of (k : string) (d : dict) : option datetime :=
  match d !! k with
  | Some (VStr s) => strptime_fmt s
  | _ => None
  end.

Definition has_timestamp (k : string) (d : dict) : bool :=
  match timestamp_of k d with
  | Some _ => true
  | None => false
  end.

(** Updated within the 90 days before the reading [current]. *)
Definition updated_since (current : datetime) (repo : dict) : bool :=
  match timestamp_of "updated_at" repo with
  | Some updated => updated >? current - timedelta_days 90
  | None => false
  end.

(** The number of recently updated records when the first record is checked
    against reading [t] of the clock, the next one against reading [t + 1],
    and so on. *)
Fixpoint recent_count (t : nat) (repos_data : list dict) : Z :=
  match repos_data with
  | [] => 0
  | repo :: rest =>
      (if updated_since (clock t) repo then 1 else 0) + recent_count (S t) rest
  end.

(** Integer counters and parseable timestamps: the shape of the records of
    the API. *)
Definition repo_ok (repo : dict) : bool :=
  int_like (get_default repo "stargazers_count" (VInt 0)) &&
  int_like (get_default repo "forks_count" (VInt 0)) &&
  has_timestamp "updated_at" repo.

Definition repos_ok (repos_data : list dict) : bool := forallb repo_ok repos_data.

Definition user_ok (user_data : dict) : bool :=
  int_like (get_default user_data "followers" (VInt 0)).

Definition events_ok (events_data : list dict) : bool :=
  match events_data with
  | [] => true
  | newest :: _ => has_timestamp "created_at" newest
  end.

Definition data_ok (data : github_data) : bool :=
  user_ok (user data) && repos_ok (repos data) && events_ok (events data).

(** The effects of [analyze_repository_quality] on a non-empty collection,
    in the order of the source: the two sums, then one parse and one clock
    reading per record.  It returns the star total and the recent count. *)
Definition measure (repos_data : list dict) : M (Z * Z) :=
  stars ← py_sum (star_values repos_data);
  forks ← py_sum (fork_values repos_data);
  recent ← count_if
    (fun repo =>
       updated_at ← getitem repo "updated_at";
       updated ← strptime strptime_fmt updated_at;
       current ← now clock;
       mret (updated >? current - timedelta_days 90))
    repos_data;
  mret (stars, recent).

(** The effects of [analyze_activity_consistency] on a non-empty collection:
    one parse of the first record and one clock reading.  It returns the age
    in days of the first record. *)
Definition newest_age (events_data : list dict) : M Z :=
  newest ← first_item events_data;
  created_at ← getitem newest "created_at";
  latest_event ← strptime strptime_fmt created_at;
  current ← now clock;
  mret (days (current - latest_event)).

(** The number of clock readings of one run of [main]. *)
Definition readings (data : github_data) : nat :=
  (length (repos data) + (if list_truthy (events data) then 1 else 0))%nat.

End Measures.

(** The recommendation block of the specification. *)
Definition remark (color text : string) : fstring :=
  [Text "    "; Text color; Text text; Text Colors.ENDC].

Definition recommendations_header : fstring :=
  [Text NL; Text Colors.HEADER; Text Colors.BOLD; Text "💡 RECOMMENDATIONS:"; Text Colors.ENDC].

Definition profile_remarks (s : Z) : list fstring :=
  if s <? 80
  then [remark Colors.WARNING "• Complete your profile with missing information"]
  else [].

Definition repository_remarks (s : Z) : list fstring :=
  if s <? 80
  then [remark Colors.WARNING "• Add descriptions to your repositories";
        remark Colors.WARNING "• Diversify your programming languages"]
  else [].

Definition activity_remarks (s : Z) : list fstring :=
  if s <? 80
  then [remark Colors.WARNING "• Increase your GitHub activity and consistency"]
  else [].

Inductive tier : Type := Excellent | Good | NeedsImprovement.

Definition recommendation_lines (profile_score repo_score activity_score : Z) : list fstring :=
  recommendations_header ::
  profile_remarks profile_score ++ repository_remarks repo_score ++
  activity_remarks activity_score.

Definition tier_of (total : Z) : tier :=
  if 240 <=? total then Excellent
  else if 180 <=? total then Good
  else NeedsImprovement.

Definition closing_remark (t : tier) : fstring :=
  match t with
  | Excellent =>
      remark Colors.OKGREEN "🎉 Excellent GitHub presence! Keep up the great work!"
  | Good =>
      remark Colors.OKCYAN "👍 Good GitHub presence with room for improvement"
  | NeedsImprovement =>
      remark Colors.WARNING "📈 Focus on building a stronger GitHub presence"
  end.

(** ** The float expressions in binary64

    The same expressions with the primitive binary64 floats of the kernel.
    An [int] below [2^53] converts exactly, [/] and [*] round to nearest
    even as in Python, and the literal [0.3] denotes the same double. *)

Module Binary64.

Definition of_int (z : Z) : float := PrimFloat.of_uint63 (Uint63.of_Z z).

Definition float_geb (x y : float) : bool := PrimFloat.leb y x.

Definition doc_percentage (documented_repos repo_count : Z) : float :=
  PrimFloat.mul (PrimFloat.div (of_int documented_repos) (of_int repo_count)) (of_int 100).

(** [doc_percentage >= 80] and [doc_percentage >= 60] *)
Definition doc_decisions (documented_repos repo_count : Z) : bool * bool :=
  (float_geb (doc_percentage documented_repos repo_count) (of_int 80),
   float_geb (doc_percentage documented_repos repo_count) (of_int 60)).

(** [recent_repos >= repo_count * 0.5] and [recent_repos >= repo_count * 0.3] *)
Definition recency_decisions (recent_repos repo_count : Z) : bool * bool :=
  (float_geb (of_int recent_repos) (PrimFloat.mul (of_int repo_count) 0.5%float),
   float_geb (of_int recent_repos)
     (PrimFloat.mul (of_int repo_count) 0x1.3333333333333p-2%float)).

Definition exact_doc_decisions (documented_repos repo_count : Z) : bool * bool :=
  let doc_percentage := (inject_Z documented_repos / inject_Z repo_count * 100)%Q in
  (Qgeb doc_percentage 80, Qgeb doc_percentage 60).

Definition exact_recency_decisions (recent_repos repo_count : Z) : bool * bool :=
  (Qgeb (inject_Z recent_repos) (inject_Z repo_count * 0.5),
   Qgeb (inject_Z recent_repos) (inject_Z repo_count * 0.3)).

Definition same_decisions (a b : bool * bool) : bool :=
  Bool.eqb (fst a) (fst b) && Bool.eqb (snd a) (snd b).

Definition agree_at (k n : nat) : bool :=
  same_decisions (doc_decisions (Z.of_nat k) (Z.of_nat n))
                 (exact_doc_decisions (Z.of_nat k) (Z.of_nat n)) &&
  same_decisions (recency_decisions (Z.of_nat k) (Z.of_nat n))
                 (exact_recency_decisions (Z.of_nat k) (Z.of_nat n)).

(** Every count [k <= n] for every size [1 <= n <= bound]. *)
Definition agree_upto (bound : nat) : bool :=
  forallb (fun n => forallb (fun k => agree_at k n) (seq 0 (S n))) (seq 1 bound).

End Binary64.

(** ** Sample data *)

Module Examples.

Definition at_time (s : string) : datetime := default 0 (Iso8601.iso8601 s).

Definition noon_1_june_2024 : datetime := Eval vm_compute in at_time "2024-06-01T12:00:00Z".

(** A clock that stands still, and one that has moved on by 100 days at
    every reading but reading [k]. *)
Definition steady_clock : nat -> datetime := fun _ => noon_1_june_2024.

Definition jumping_clock (k : nat) : nat -> datetime :=
  fun i => if Nat.eqb i k then noon_1_june_2024 else noon_1_june_2024 + timedelta_days 100.

Definition repo (description language : value) (stars forks : Z) (updated_at : string) : dict :=
  {[ "description" := description; "language" := language;
     "stargazers_count" := VInt stars; "forks_count" := VInt forks;
     "updated_at" := VStr updated_at ]}.

Definition event (type created_at : string) : dict :=
  {[ "type" := VStr type; "created_at" := VStr created_at ]}.

(** 12 repositories, 10 with a description, 4 distinct languages, 60 stars
    in total, 7 updated within the 90 days before 1 June 2024. *)
Definition twelve_repos : list dict :=
  [ repo (VStr "parser") (VStr "Python") 20 3 "2024-05-30T09:00:00Z";
    repo (VStr "lexer") (VStr "Python") 10 0 "2024-05-12T18:45:10Z";
    repo (VStr "solver") (VStr "Rust") 10 1 "2024-04-02T07:15:00Z";
    repo (VStr "server") (VStr "Go") 5 0 "2024-03-04T12:00:00Z";
    repo (VStr "client") (VStr "Go") 5 2 "2024-05-01T08:30:00Z";
    repo (VStr "tools") (VStr "C") 4 0 "2024-03-20T23:59:59Z";
    repo (VStr "notes") VNone 3 0 "2024-05-31T00:00:00Z";
    repo (VStr "dotfiles") VNone 2 0 "2023-01-15T10:00:00Z";
    repo (VStr "website") (VStr "") 1 0 "2024-03-03T12:00:00Z";
    repo (VStr "playground") (VStr "Rust") 0 0 "2022-11-30T16:20:00Z";
    repo VNone (VStr "C") 0 0 "2021-07-04T00:00:00Z";
    repo (VStr "") (VStr "Python") 0 5 "2024-02-29T12:00:00Z" ].

(** The same collection with other fork counts, some of them missing. *)
Definition twelve_repos_other_forks : list dict :=
  map (fun r => if truthy (get r "language")
                then <["forks_count" := VInt 1000]> r
                else delete "forks_count" r) twelve_repos.

(** The same collection with two descriptions removed. *)
Definition twelve_repos_less_documented : list dict :=
  match twelve_repos with
  | r1 :: r2 :: rest => delete "description" r1 :: <["description" := VStr ""]> r2 :: rest
  | _ => []
  end.

(** The least and the greatest repository scores. *)
Definition one_bare_repo : list dict :=
  [ repo VNone VNone 0 0 "2020-01-01T00:00:00Z" ].

Definition ten_strong_repos : list dict :=
  map (fun lang => repo (VStr "documented") (VStr lang) 5 0 "2024-05-30T09:00:00Z")
      ["Python"; "Rust"; "Go"; "C"; "OCaml"; "Python"; "Rust"; "Go"; "C"; "OCaml"].

(** 25 events of 4 types, the newest 3 days old on 1 June 2024. *)
Definition twenty_five_events : list dict :=
  event "PushEvent" "2024-05-29T10:00:00Z" ::
  event "IssuesEvent" "2024-05-28T10:00:00Z" ::
  event "WatchEvent" "2024-05-27T10:00:00Z" ::
  event "ForkEvent" "2024-05-26T10:00:00Z" ::
  repeat (event "PushEvent" "2024-05-20T10:00:00Z") 21.

(** Only [name] and 5 followers. *)
Definition named_profile : dict :=
  {[ "name" := VStr "Ada"; "followers" := VInt 5 ]}.

Definition full_profile : dict :=
  {[ "name" := VStr "Ada"; "bio" := VStr "engineer"; "location" := VStr "London";
     "company" := VStr "Analytical Engines"; "email" := VStr "ada@example.org";
     "blog" := VStr "https://example.org"; "twitter_username" := VStr "ada";
     "followers" := VInt 120 ]}.

Definition sample_data : github_data :=
  {| user := named_profile; repos := twelve_repos; events := twenty_five_events |}.

(** One repository updated 10 days before, one event 3 days before
    1 June 2024. *)
Definition skew_data : github_data :=
  {| user := named_profile;
     repos := [ repo (VStr "parser") (VStr "Python") 20 3 "2024-05-22T12:00:00Z" ];
     events := [ event "PushEvent" "2024-05-29T10:00:00Z" ] |}.

Definition no_analysis : analysis := {| score := 0; details := [] |}.

(** What a run on [sample_data] computes when the clock stands still. *)
Definition sample_report : report :=
  Eval vm_compute in
    match main Iso8601.iso8601 steady_clock sample_data 0%nat with
    | inr (rep, _) => rep
    | inl _ => {| profile_analysis := no_analysis; repo_analysis := no_analysis;
                  activity_analysis := no_analysis; total_score := 0; printed := [] |}
    end.

(** A clock that agrees with [steady_clock] on its first [n] readings. *)
Definition late_jump_clock (n : nat) : nat -> datetime :=
  fun i => if Nat.ltb i n then noon_1_june_2024 else noon_1_june_2024 + timedelta_days 100.

End Examples.

(** ** Failures of the timestamp reads

    What [datetime.strptime(d[k], ...)] raises on a record, if anything:
    [KeyError] for a missing key, [TypeError] for a value that is not a
    string, [ValueError] for a string that does not parse. *)

Section TimestampErrors.

Variable strptime_fmt : string -> option datetime.

Definition timestamp_error (k : string) (d : dict) : option exn :=
  match d !! k with
  | None => Some (KeyError k)
  | Some (VStr s) =>
      match strptime_fmt s with
      | Some _ => None
      | None => Some ValueError
      end
  | Some _ => Some TypeError
  end.

(** The failure of the first record that has one. *)
Fixpoint first_timestamp_error (k : string) (ds : list dict) : option exn :=
  match ds with
  | [] => None
  | d :: rest =>
      match timestamp_error k d with
      | Some e => Some e
      | None => first_timestamp_error k rest
      end
  end.

End TimestampErrors.

(** Two dictionaries with the same entries under the keys [ks]. *)
Definition agree_on (ks : list string) (x y : dict) : Prop :=
  Forall (fun k => x !! k = y !! k) ks.

Definition profile_fields : list string :=
  ["name"; "bio"; "location"; "company"; "email"; "blog"; "twitter_username"; "followers"].

Definition repository_fields : list string :=
  ["description"; "language"; "stargazers_count"; "forks_count"; "updated_at"].

(** ** The strength meter

    [display_strength_meter] computes on binary64 floats; it is modelled
    with the primitive floats of the kernel.  The integer operands are the
    scores and maxima passed by [main], far below [2^53], where the
    conversion of an [int] to a float is exact and [a / b] on integers is
    the float quotient.  The two printed lines are returned. *)

Module Meter.

Inductive error : Type :=
| ZeroDivisionError
| OverflowError
| ValueError.

(** [float(z)] *)
Definition float_of_int (z : Z) : float :=
  match z with
  | Z0 => 0%float
  | Zpos _ => PrimFloat.of_uint63 (Uint63.of_Z z)
  | Zneg p => PrimFloat.opp (PrimFloat.of_uint63 (Uint63.of_Z (Zpos p)))
  end.

(** [a / b] on integers *)
Definition truediv (a b : Z) : error + float :=
  if b =? 0 then inl ZeroDivisionError
  else inr (PrimFloat.div (float_of_int a) (float_of_int b)).

(** [int(x)]: truncation towards zero *)
Definition int_of_float (x : float) : error + Z :=
  match Prim2SF x with
  | S754_zero _ => inr 0
  | S754_finite s m e =>
      let magnitude := if 0 <=? e then Z.pos m * 2 ^ e else Z.pos m / 2 ^ (- e) in
      inr (if s then - magnitude else magnitude)
  | S754_infinity _ => inl OverflowError
  | S754_nan => inl ValueError
  end.

(** The exact value of a finite float. *)
Definition Q_of_float (x : float) : Q :=
  match Prim2SF x with
  | S754_finite s m e =>
      let q := if 0 <=? e then inject_Z (Z.pos m * 2 ^ e)
               else Qmake (Z.pos m) (Z.to_pos (2 ^ (- e))) in
      if s then Qopp q else q
  | _ => 0
  end.

(** [x >= n] for a float and an integer literal *)
Definition float_geb (x : float) (n : Z) : bool := PrimFloat.leb (float_of_int n) x.

(** [s * n]: empty for [n <= 0] *)
Definition str_mul (s : string) (n : Z) : string :=
  String.concat "" (repeat s (Z.to_nat n)).

Definition display_strength_meter (score max_score : Z) (title : string)
    : error + list fstring :=
  match truediv score max_score with
  | inl e => inl e
  | inr ratio =>
      let percentage := PrimFloat.mul ratio (float_of_int 100) in
      let bar_length := 40 in
      match int_of_float
              (PrimFloat.div (PrimFloat.mul (float_of_int bar_length) percentage)
                             (float_of_int 100)) with
      | inl e => inl e
      | inr filled_length =>
          let color :=
            if float_geb percentage 80 then Colors.OKGREEN
            else if float_geb percentage 60 then Colors.OKCYAN
            else if float_geb percentage 40 then Colors.WARNING
            else Colors.FAIL in
          let bar := str_mul "█" filled_length +:+ str_mul "░" (bar_length - filled_length) in
          inr [ [Text NL; Text Colors.BOLD; Text title; Text Colors.ENDC];
                [Text color; Text "["; Text bar; Text "] "; Fmt1f (Q_of_float percentage);
                 Text "% ("; Fmt (VInt score); Text "/"; Fmt (VInt max_score); Text ")";
                 Text Colors.ENDC] ]
      end
  end.

(** The meter as the specification would have it, on exact integers. *)
Definition exact_color (score max_score : Z) : string :=
  if 80 * max_score <=? 100 * score then Colors.OKGREEN
  else if 60 * max_score <=? 100 * score then Colors.OKCYAN
  else if 40 * max_score <=? 100 * score then Colors.WARNING
  else Colors.FAIL.

Definition exact_bar (score max_score : Z) : string :=
  let filled := 40 * score / max_score in
  str_mul "█" filled +:+ str_mul "░" (40 - filled).

(** The colour and the bar of the second printed line. *)
Definition drawn (lines : list fstring) : option (string * string) :=
  match lines with
  | [_; Text color :: _ :: Text bar :: _] => Some (color, bar)
  | _ => None
  end.

Definition drawn_exactly (score max_score : Z) : bool :=
  match display_strength_meter score max_score "" with
  | inr lines =>
      match drawn lines with
      | Some (color, bar) =>
          String.eqb color (exact_color score max_score) &&
          String.eqb bar (exact_bar score max_score)
      | None => false
      end
  | inl _ => false
  end.

Definition drawn_exactly_upto (max_score : Z) : bool :=
  forallb (fun n => drawn_exactly (Z.of_nat n) max_score) (seq 0 (S (Z.to_nat max_score))).

End Meter.

(** ** More sample data *)

Module Samples.

Definition null_followers_profile : dict :=
  {[ "name" := VStr "Ada"; "followers" := VNone ]}.

(** [Examples.named_profile] with fields the analyzer does not read. *)
Definition named_profile_with_extras : dict :=
  <["login" := VStr "ada"]> (<["public_repos" := VInt 12]> Examples.named_profile).

Definition repos_with_null_forks : list dict :=
  match Examples.twelve_repos with
  | r1 :: rest => r1 :: map (fun r => <["forks_count" := VNone]> r) rest
  | [] => []
  end.

(** The third record has no [updated_at], the fifth one a date that does
    not parse. *)
Definition repos_with_bad_timestamps : list dict :=
  match Examples.twelve_repos with
  | r1 :: r2 :: r3 :: r4 :: r5 :: rest =>
      r1 :: r2 :: delete "updated_at" r3 :: r4 :: <["updated_at" := VStr "yesterday"]> r5 :: rest
  | _ => []
  end.

Definition twelve_repos_reversed : list dict := rev Examples.twelve_repos.

(** [Examples.twelve_repos] with 40 more stars on the first record and a
    fifth language on the seventh. *)
Definition twelve_repos_improved : list dict :=
  match Examples.twelve_repos with
  | r1 :: r2 :: r3 :: r4 :: r5 :: r6 :: r7 :: rest =>
      <["stargazers_count" := VInt 60]> r1 :: r2 :: r3 :: r4 :: r5 :: r6 ::
      <["language" := VStr "OCaml"]> r7 :: rest
  | _ => []
  end.

(** The newest event as in [Examples.twenty_five_events], the older ones
    without a usable [created_at]. *)
Definition events_with_bad_tail : list dict :=
  match Examples.twenty_five_events with
  | newest :: rest =>
      newest :: map (fun e => <["created_at" := VInt 0]> e) rest
  | [] => []
  end.

Definition event_without_date : list dict :=
  [ {[ "type" := VStr "PushEvent" ]}; Examples.event "PushEvent" "2024-05-29T10:00:00Z" ].

Definition null_followers_data : github_data :=
  {| user := null_followers_profile;
     repos := repos_with_bad_timestamps;
     events := event_without_date |}.

End Samples.

(** * Proofs *)

(** ** Comparisons of rationals *)

Lemma Qgeb_le (x y : Q) : Qgeb x y = true <-> (y <= x)%Q.
Proof. unfold Qgeb. apply Qle_bool_iff. Qed.

Lemma doc_percentage_geb (d n p : Z) :
  0 < n -> Qgeb (inject_Z d / inject_Z n * 100) (inject_Z p) = (p * n <=? 100 * d).
Proof.
  intros Hn. apply Bool.eq_iff_eq_true. rewrite Qgeb_le, Z.leb_le.
  destruct n as [|q|q]; try lia.
  unfold Qle, Qdiv, Qmult, Qinv, inject_Z. cbn [Qnum Qden].
  rewrite !Z.mul_1_r. 
  nia.
Qed.

Lemma recency_geb (r n a : Z) :
  Qgeb (inject_Z r) (inject_Z n * (a # 10)) = (a * n <=? 10 * r).
Proof.
  apply Bool.eq_iff_eq_true. rewrite Qgeb_le, Z.leb_le.
  unfold Qle, Qmult, inject_Z. cbn [Qnum Qden]. 
  lia.
Qed.

(** ** Running computations *)

Lemma run_ret {A : Type} (a : A) (t : nat) : (mret a : M A) t = inr (a, t).
Proof. reflexivity. Qed.

Lemma run_bind {A B : Type} (m : M A) (f : A -> M B) (t : nat) :
  (m ≫= f) t = match m t with inl e => inl e | inr (a, t') => f a t' end.
Proof. reflexivity. Qed.

Lemma len_cons {A : Type} (x : A) (l : list A) : len (x :: l) = 1 + len l.
Proof. unfold len. cbn [length]. lia. Qed.

Lemma len_nonneg {A : Type} (l : list A) : 0 <= len l.
Proof. unfold len. lia. Qed.

Lemma len_pos {A : Type} (l : list A) : l <> [] -> 0 < len l.
Proof. destruct l; [congruence | rewrite len_cons; pose proof (len_nonneg l); lia]. Qed.

Lemma count_from_pure {A : Type} (p : A -> bool) (xs : list A) (acc : Z) (t : nat) :
  count_from acc (fun x => mret (p x)) xs t = inr (acc + len (List.filter p xs), t).
Proof.
  revert acc. induction xs as [|x xs IH]; intros acc.
  - cbn [count_from List.filter]. rewrite run_ret. do 2 f_equal. unfold len. cbn [length]. lia.
  - cbn [count_from List.filter]. rewrite run_bind, run_ret, IH.
    destruct (p x); [rewrite len_cons|]; do 2 f_equal; lia.
Qed.

Lemma sum_from_ok (vs : list value) (acc : Z) (t : nat) :
  forallb int_like vs = true -> sum_from acc vs t = inr (acc + sum_ints vs, t).
Proof.
  revert acc. induction vs as [|v vs IH]; intros acc Hok.
  - cbn [sum_from sum_ints fold_right]. rewrite run_ret. do 2 f_equal. lia.
  - cbn [forallb] in Hok. apply andb_prop in Hok as [Hv Hvs].
    cbn [sum_from sum_ints fold_right]. rewrite run_bind.
    destruct v; try discriminate; cbn [as_int]; rewrite run_ret, IH by assumption;
      cbn [int_of]; do 2 f_equal; unfold sum_ints; lia.
Qed.

Lemma sum_from_raises (vs : list value) (acc : Z) (t : nat) :
  forallb int_like vs = false -> sum_from acc vs t = inl TypeError.
Proof.
  revert acc. induction vs as [|v vs IH]; intros acc Hok; [discriminate|].
  cbn [forallb] in Hok. cbn [sum_from]. rewrite run_bind.
  destruct v; cbn [as_int int_like] in *; try reflexivity; rewrite run_ret; apply IH; exact Hok.
Qed.

Lemma truthy_get_lookup (d : dict) (k : string) :
  truthy (get d k) = true -> d !! k = Some (get d k).
Proof. unfold get. destruct (d !! k); [reflexivity | discriminate]. Qed.

Lemma languages_loop (repos_data : list dict) (languages : gset value) (t : nat) :
  for_each repos_data
    (fun repo (languages : gset value) =>
       if truthy (get repo "language")
       then language ← getitem repo "language"; mret ({[ set_key language ]} ∪ languages)
       else mret languages)
    languages t
  = inr (list_to_set (language_keys repos_data) ∪ languages, t).
Proof.
  revert languages. induction repos_data as [|repo rest IH]; intros languages.
  - cbn [for_each]. rewrite run_ret. unfold language_keys. cbn [map List.filter].
    rewrite list_to_set_nil, (left_id_L ∅ (∪)). reflexivity.
  - cbn [for_each]. rewrite run_bind. unfold language_keys in *. cbn [map List.filter].
    destruct (truthy (get repo "language")) eqn:Hl.
    + rewrite run_bind. unfold getitem. rewrite (truthy_get_lookup _ _ Hl), !run_ret, IH.
      do 2 f_equal. cbn [map]. rewrite list_to_set_cons.
      apply set_eq. intros x. rewrite !elem_of_union. tauto.
    + rewrite run_ret, IH. reflexivity.
Qed.

Lemma size_list_to_set_distinct (l : list value) :
  Z.of_nat (size (list_to_set l : gset value)) = len (remove_dups l).
Proof.
  unfold len. f_equal.
  rewrite <- (size_list_to_set (C := gset value) (remove_dups l)) by apply NoDup_remove_dups.
  f_equal. apply set_eq. intros x. rewrite !elem_of_list_to_set. symmetry. apply elem_of_remove_dups.
Qed.

(** ** Bucket steps

    A step [if c: score += p; details.append(l) ...] of the source adds the
    points of its branch and appends the line of its branch. *)

Lemma tier2 {X : Type} (c : bool) (s p : Z) (d : list fstring) (l1 l2 : fstring)
    (K : Z -> list fstring -> X) :
  (let '(score, details) := if c then (s + p, d ++ [l1]) else (s, d ++ [l2]) in
   K score details)
  = K (s + (if c then p else 0)) (d ++ [if c then l1 else l2]).
Proof. destruct c; [reflexivity | rewrite Z.add_0_r; reflexivity]. Qed.

Lemma tier3 {X : Type} (c1 c2 : bool) (s p1 p2 p3 : Z) (d : list fstring)
    (l1 l2 l3 : fstring) (K : Z -> list fstring -> X) :
  (let '(score, details) :=
     if c1 then (s + p1, d ++ [l1])
     else if c2 then (s + p2, d ++ [l2])
     else (s + p3, d ++ [l3]) in
   K score details)
  = K (s + (if c1 then p1 else if c2 then p2 else p3))
      (d ++ [if c1 then l1 else if c2 then l2 else l3]).
Proof. destruct c1, c2; reflexivity. Qed.

Lemma list_truthy_nonempty {A : Type} (l : list A) : l <> [] -> list_truthy l = true.
Proof. destruct l; [congruence | reflexivity]. Qed.

(** ** Profile completeness *)

Lemma followers_lookup (user_data : dict) (z : Z) :
  get_default user_data "followers" (VInt 0) = VInt z -> (z >? 0) = true ->
  user_data !! "followers" = Some (VInt z).
Proof.
  unfold get_default. destruct (user_data !! "followers"); cbn; intros Hv Hz.
  - congruence.
  - injection Hv as <-. discriminate.
Qed.

Lemma followers_lookup_bool (user_data : dict) (b : bool) :
  get_default user_data "followers" (VInt 0) = VBool b ->
  user_data !! "followers" = Some (VBool b).
Proof.
  unfold get_default. destruct (user_data !! "followers"); cbn; intros H.
  - congruence.
  - discriminate.
Qed.

(** What a call of [analyze_profile_completeness] does: it raises
    [TypeError] exactly when [followers] is not a number; otherwise it
    returns the sum of the point table and eight detail lines, and leaves
    the clock alone. *)
Lemma analyze_profile_completeness_outcome (user_data : dict) (t : nat) :
  match analyze_profile_completeness user_data t with
  | inr (r, t') =>
      t' = t /\ user_ok user_data = true /\
      score r = profile_points user_data /\ length (details r) = 8%nat
  | inl e => e = TypeError /\ user_ok user_data = false
  end.
Proof.
  unfold analyze_profile_completeness. cbv zeta.
  do 7 rewrite tier2. rewrite run_bind.
  unfold user_ok, profile_points, followers_points, field_points.
  destruct (get_default user_data "followers" (VInt 0)) as [|b|z|s] eqn:Hf;
    cbn [as_int int_like int_of]; try (split; reflexivity).
  - rewrite run_ret, run_bind.
    destruct (Z.b2z b >? 0) eqn:Hb.
    + rewrite run_bind. unfold getitem. rewrite (followers_lookup_bool _ _ Hf), !run_ret.
      cbn [score details]. repeat split; lia.
    + rewrite !run_ret. cbn [score details]. repeat split; lia.
  - rewrite run_ret, run_bind.
    destruct (z >? 0) eqn:Hz.
    + rewrite run_bind. unfold getitem. rewrite (followers_lookup _ _ Hf Hz), !run_ret.
      cbn [score details]. repeat split; lia.
    + rewrite !run_ret. cbn [score details]. repeat split; lia.
Qed.

Lemma profile_points_range (user_data : dict) : 0 <= profile_points user_data <= 100.
Proof.
  unfold profile_points, followers_points, field_points.
  repeat match goal with |- context [if ?c then _ else _] => destruct c end; lia.
Qed.

(** C4: with a numeric (or absent) follower count, the profile score is the
    sum of the point table, name 10, bio 10, location 10, company 10,
    email 15, blog 15, twitter handle 15, followers > 0 15; it lies in
    [0,100]; a profile with only a name and 5 followers scores 25. *)
Theorem profile_score_is_table_sum :
  forall (user_data : dict) (t : nat),
    user_ok user_data = true ->
    exists r : analysis,
      analyze_profile_completeness user_data t = inr (r, t) /\
      score r =
        (if truthy (get user_data "name") then 10 else 0) +
        (if truthy (get user_data "bio") then 10 else 0) +
        (if truthy (get user_data "location") then 10 else 0) +
        (if truthy (get user_data "company") then 10 else 0) +
        (if truthy (get user_data "email") then 15 else 0) +
        (if truthy (get user_data "blog") then 15 else 0) +
        (if truthy (get user_data "twitter_username") then 15 else 0) +
        (if int_of (get_default user_data "followers" (VInt 0)) >? 0 then 15 else 0) /\
      0 <= score r <= 100 /\
      (truthy (get user_data "name") = true ->
       get user_data "followers" = VInt 5 ->
       (forall k, In k ["bio"; "location"; "company"; "email"; "blog"; "twitter_username"] ->
                  truthy (get user_data k) = false) ->
       score r = 25).
Proof.
  intros user_data t Hok.
  pose proof (analyze_profile_completeness_outcome user_data t) as Hrun.
  destruct (analyze_profile_completeness user_data t) as [e|[r t']].
  - destruct Hrun as [_ Hbad]. congruence.
  - destruct Hrun as (-> & _ & Hscore & _). exists r.
    split; [reflexivity|]. split; [exact Hscore|].
    split; [rewrite Hscore; apply profile_points_range|].
    intros Hname Hfollowers Hrest. rewrite Hscore.
    unfold profile_points, followers_points, field_points.
    assert (get_default user_data "followers" (VInt 0) = VInt 5) as ->.
    { unfold get, get_default in *. destruct (user_data !! "followers"); [assumption|discriminate]. }
    rewrite Hname, !Hrest by (cbn; tauto). reflexivity.
Qed.

Lemma profile_score_is_table_sum_witness :
  exists r : analysis,
    analyze_profile_completeness Examples.named_profile 0%nat = inr (r, 0%nat) /\ score r = 25.
Proof.
  destruct (profile_score_is_table_sum Examples.named_profile 0%nat eq_refl)
    as (r & Hrun & _ & _ & Honly).
  exists r. split; [exact Hrun|].
  apply Honly; [reflexivity | reflexivity |].
  intros k Hk. cbn in Hk.
  repeat (destruct Hk as [<-|Hk]; [reflexivity|]). destruct Hk.
Defined.

(** ** Repository quality *)

Section RepositoryRuns.

Variable strptime_fmt : string -> option datetime.
Variable clock : nat -> datetime.

Lemma timestamp_lookup (k : string) (d : dict) (ts : datetime) :
  timestamp_of strptime_fmt k d = Some ts ->
  exists s, d !! k = Some (VStr s) /\ strptime_fmt s = Some ts.
Proof.
  unfold timestamp_of. destruct (d !! k) as [[| | |s]|]; try discriminate.
  intros H. exists s. split; [reflexivity | exact H].
Qed.

Lemma run_getitem (d : dict) (k : string) (v : value) (t : nat) :
  d !! k = Some v -> getitem d k t = inr (v, t).
Proof. unfold getitem. intros ->. reflexivity. Qed.

Lemma run_strptime (s : string) (ts : datetime) (t : nat) :
  strptime_fmt s = Some ts -> strptime strptime_fmt (VStr s) t = inr (ts, t).
Proof. cbn [strptime]. intros ->. reflexivity. Qed.

Lemma run_now (t : nat) : now clock t = inr (clock t, S t).
Proof. reflexivity. Qed.

(** The check of one record: a parse, then a clock reading. *)
Lemma recent_check (repo : dict) (ts : datetime) (t : nat) :
  timestamp_of strptime_fmt "updated_at" repo = Some ts ->
  (updated_at ← getitem repo "updated_at";
   updated ← strptime strptime_fmt updated_at;
   current ← now clock;
   mret (updated >? current - timedelta_days 90)) t
  = inr (ts >? clock t - timedelta_days 90, S t).
Proof.
  intros Hts. destruct (timestamp_lookup _ _ _ Hts) as (s & Hlookup & Hparse).
  rewrite run_bind, (run_getitem _ _ _ _ Hlookup).
  rewrite run_bind, (run_strptime _ _ _ Hparse).
  rewrite run_bind, run_now, run_ret. reflexivity.
Qed.

(** One parse and one clock reading per record, in order. *)
Lemma recent_loop (repos_data : list dict) (acc : Z) (t : nat) :
  forallb (has_timestamp strptime_fmt "updated_at") repos_data = true ->
  count_from acc
    (fun repo =>
       updated_at ← getitem repo "updated_at";
       updated ← strptime strptime_fmt updated_at;
       current ← now clock;
       mret (updated >? current - timedelta_days 90))
    repos_data t
  = inr (acc + recent_count strptime_fmt clock t repos_data, (t + length repos_data)%nat).
Proof.
  revert acc t. induction repos_data as [|repo rest IH]; intros acc t Hok.
  - cbn [count_from recent_count length]. rewrite run_ret. do 2 f_equal; lia.
  - cbn [forallb] in Hok. apply andb_prop in Hok as [Hrepo Hrest].
    unfold has_timestamp in Hrepo.
    destruct (timestamp_of strptime_fmt "updated_at" repo) as [ts|] eqn:Hts; [|discriminate].
    cbn [count_from recent_count length].
    rewrite run_bind, (recent_check _ _ _ Hts), IH by exact Hrest.
    unfold updated_since. rewrite Hts.
    destruct (ts >? clock t - timedelta_days 90); do 2 f_equal; lia.
Qed.

Lemma repos_ok_stars (repos_data : list dict) :
  repos_ok strptime_fmt repos_data = true -> forallb int_like (star_values repos_data) = true.
Proof.
  unfold repos_ok, star_values. induction repos_data as [|repo rest IH]; [reflexivity|].
  cbn [forallb map]. unfold repo_ok at 1. intros H.
  repeat (apply andb_prop in H as [H ?]). rewrite IH by assumption.
  rewrite H. reflexivity.
Qed.

Lemma repos_ok_forks (repos_data : list dict) :
  repos_ok strptime_fmt repos_data = true -> forallb int_like (fork_values repos_data) = true.
Proof.
  unfold repos_ok, fork_values. induction repos_data as [|repo rest IH]; [reflexivity|].
  cbn [forallb map]. unfold repo_ok at 1. intros H.
  repeat (apply andb_prop in H as [H ?]). rewrite IH by assumption.
  match goal with H : int_like _ = true |- _ => rewrite H end. reflexivity.
Qed.

Lemma repos_ok_timestamps (repos_data : list dict) :
  repos_ok strptime_fmt repos_data = true ->
  forallb (has_timestamp strptime_fmt "updated_at") repos_data = true.
Proof.
  unfold repos_ok. induction repos_data as [|repo rest IH]; [reflexivity|].
  cbn [forallb]. unfold repo_ok at 1. intros H.
  repeat (apply andb_prop in H as [H ?]). rewrite IH by assumption.
  match goal with H : has_timestamp _ _ _ = true |- _ => rewrite H end. reflexivity.
Qed.

(** On records of the shape of the API nothing raises: the sums are the
    totals and the clock is read once per record. *)
Lemma measure_ok (repos_data : list dict) (t : nat) :
  repos_ok strptime_fmt repos_data = true ->
  measure strptime_fmt clock repos_data t
  = inr ((total_stars repos_data, recent_count strptime_fmt clock t repos_data),
         (t + length repos_data)%nat).
Proof.
  intros Hok. unfold measure, py_sum, count_if.
  rewrite run_bind, sum_from_ok by (apply repos_ok_stars, Hok).
  rewrite run_bind, sum_from_ok by (apply repos_ok_forks, Hok).
  rewrite run_bind, recent_loop by (apply repos_ok_timestamps, Hok).
  rewrite run_ret, !Z.add_0_l. reflexivity.
Qed.

(** What a call of [analyze_repository_quality] on a non-empty collection
    does: it raises what [measure] raises, and otherwise returns, after the
    same clock readings, the sum of the five buckets of the measurements. *)
Lemma analyze_repository_quality_outcome (repos_data : list dict) (t : nat) :
  repos_data <> [] ->
  match analyze_repository_quality strptime_fmt clock repos_data t,
        measure strptime_fmt clock repos_data t with
  | inl e, inl e' => e = e'
  | inr (r, t'), inr ((stars, recent), t'') =>
      t' = t'' /\
      score r = repository_points (len repos_data) (documented repos_data)
                  (distinct_languages repos_data) stars recent /\
      length (details r) = 5%nat
  | _, _ => False
  end.
Proof.
  intros Hne. unfold analyze_repository_quality, measure.
  rewrite (list_truthy_nonempty _ Hne). cbn [negb]. cbv zeta.
  rewrite tier3.
  rewrite run_bind. unfold count_if at 1. rewrite count_from_pure. cbv beta iota.
  rewrite tier3.
  rewrite run_bind, languages_loop. cbv beta iota.
  rewrite tier3.
  change (map (fun repo : dict => get_default repo "stargazers_count" (VInt 0)) repos_data)
    with (star_values repos_data).
  change (map (fun repo : dict => get_default repo "forks_count" (VInt 0)) repos_data)
    with (fork_values repos_data).
  rewrite !run_bind.
  destruct (py_sum (star_values repos_data) t) as [e|[stars t1]]; [reflexivity|].
  rewrite !run_bind.
  destruct (py_sum (fork_values repos_data) t1) as [e|[forks t2]]; [reflexivity|].
  rewrite tier3, !run_bind.
  match goal with |- context [count_if ?c repos_data t2] =>
    destruct (count_if c repos_data t2) as [e|[recent t3]]; [reflexivity|] end.
  rewrite tier3, !run_ret. split; [reflexivity|]. cbn [score details].
  split; [|reflexivity].
  unfold repository_points, count_points, documentation_points, language_points,
    star_points, recency_points, distinct_languages, documented.
  rewrite !Z.geb_leb, (right_id_L ∅ (∪)), size_list_to_set_distinct, !Z.add_0_l.
  rewrite (doc_percentage_geb _ _ 80), (doc_percentage_geb _ _ 60) by (apply len_pos, Hne).
  rewrite (recency_geb _ _ 5), (recency_geb _ _ 3).
  reflexivity.
Qed.

Lemma repository_points_range (total documented distinct stars recent : Z) :
  40 <= repository_points total documented distinct stars recent <= 95.
Proof.
  unfold repository_points, count_points, documentation_points, language_points,
    star_points, recency_points.
  repeat match goal with |- context [if ?c then _ else _] => destruct c end; lia.
Qed.

End RepositoryRuns.

(** C1: on a non-empty collection of records of the API the repository
    score is the sum of five buckets: count (20/15/10 at >= 10 / >= 5),
    documented share (25/20/10 at >= 80% / >= 60%), distinct non-empty
    languages (20/15/10 at >= 5 / >= 3), stars (15/10/5 at >= 50 / >= 10)
    and share updated within 90 days (15/10/5 at >= 0.5 / >= 0.3), record
    number i being compared with clock reading i.  With 12 repositories,
    10 documented, 4 languages, 60 stars and 7 recent ones it is 90. *)
Theorem repository_score_is_bucket_sum :
  forall (strptime_fmt : string -> option datetime) (clock : nat -> datetime)
         (repos_data : list dict) (t : nat),
    repos_data <> [] ->
    repos_ok strptime_fmt repos_data = true ->
    exists r : analysis,
      analyze_repository_quality strptime_fmt clock repos_data t
        = inr (r, (t + length repos_data)%nat) /\
      let total := len repos_data in
      let recent := recent_count strptime_fmt clock t repos_data in
      score r =
        (if 10 <=? total then 20 else if 5 <=? total then 15 else 10) +
        (if 80 * total <=? 100 * documented repos_data then 25
         else if 60 * total <=? 100 * documented repos_data then 20 else 10) +
        (if 5 <=? distinct_languages repos_data then 20
         else if 3 <=? distinct_languages repos_data then 15 else 10) +
        (if 50 <=? total_stars repos_data then 15
         else if 10 <=? total_stars repos_data then 10 else 5) +
        (if 5 * total <=? 10 * recent then 15
         else if 3 * total <=? 10 * recent then 10 else 5) /\
      (total = 12 -> documented repos_data = 10 -> distinct_languages repos_data = 4 ->
       total_stars repos_data = 60 -> recent = 7 -> score r = 90).
Proof.
  intros strptime_fmt clock repos_data t Hne Hok.
  pose proof (analyze_repository_quality_outcome strptime_fmt clock repos_data t Hne) as Hrun.
  rewrite (measure_ok _ _ _ _ Hok) in Hrun.
  destruct (analyze_repository_quality strptime_fmt clock repos_data t) as [e|[r t']];
    [contradiction|].
  destruct Hrun as (-> & Hscore & _). exists r. split; [reflexivity|].
  cbv zeta. split; [exact Hscore|].
  intros Htotal Hdoc Hlang Hstars Hrecent.
  rewrite Hscore, Htotal, Hdoc, Hlang, Hstars, Hrecent. reflexivity.
Qed.

Lemma repository_score_is_bucket_sum_witness :
  exists r : analysis,
    analyze_repository_quality Iso8601.iso8601 Examples.steady_clock Examples.twelve_repos 0%nat
      = inr (r, 12%nat) /\
    score r = 90.
Proof.
  destruct (repository_score_is_bucket_sum Iso8601.iso8601 Examples.steady_clock
              Examples.twelve_repos 0%nat)
    as (r & Hrun & _ & Hscenario).
  - discriminate.
  - vm_compute. reflexivity.
  - exists r. split; [exact Hrun|].
    apply Hscenario; vm_compute; reflexivity.
Defined.

(** C10: on a non-empty collection of records of the API the repository
    score lies between 40 and 95. *)
Theorem repository_score_range :
  forall (strptime_fmt : string -> option datetime) (clock : nat -> datetime)
         (repos_data : list dict) (t : nat),
    repos_data <> [] ->
    repos_ok strptime_fmt repos_data = true ->
    exists (r : analysis) (t' : nat),
      analyze_repository_quality strptime_fmt clock repos_data t = inr (r, t') /\
      40 <= score r <= 95.
Proof.
  intros strptime_fmt clock repos_data t Hne Hok.
  pose proof (analyze_repository_quality_outcome strptime_fmt clock repos_data t Hne) as Hrun.
  rewrite (measure_ok _ _ _ _ Hok) in Hrun.
  destruct (analyze_repository_quality strptime_fmt clock repos_data t) as [e|[r t']];
    [contradiction|].
  destruct Hrun as (_ & Hscore & _). exists r, t'. split; [reflexivity|].
  rewrite Hscore. apply repository_points_range.
Qed.

Lemma repository_score_range_witness :
  exists (r : analysis) (t' : nat),
    analyze_repository_quality Iso8601.iso8601 Examples.steady_clock Examples.one_bare_repo 0%nat
      = inr (r, t') /\
    40 <= score r <= 95.
Proof.
  apply (repository_score_range Iso8601.iso8601 Examples.steady_clock Examples.one_bare_repo 0%nat).
  - discriminate.
  - vm_compute. reflexivity.
Defined.

(** Both ends of the range are reached. *)
Example repository_score_extremes :
  (exists r t', analyze_repository_quality Iso8601.iso8601 Examples.steady_clock
                  Examples.one_bare_repo 0%nat = inr (r, t') /\ score r = 40) /\
  (exists r t', analyze_repository_quality Iso8601.iso8601 Examples.steady_clock
                  Examples.ten_strong_repos 0%nat = inr (r, t') /\ score r = 95).
Proof. split; do 2 eexists; split; vm_compute; reflexivity. Qed.

(** ** Collections that differ in one field *)

Lemma differ_lookup (k k' : string) (x y : dict) :
  delete k x = delete k y -> k' <> k -> x !! k' = y !! k'.
Proof.
  intros Heq Hne.
  rewrite <- (lookup_delete_ne x k k'), <- (lookup_delete_ne y k k') by congruence.
  rewrite Heq. reflexivity.
Qed.

Lemma differ_get (k k' : string) (x y : dict) :
  delete k x = delete k y -> k' <> k -> get x k' = get y k'.
Proof. intros Heq Hne. unfold get. rewrite (differ_lookup k k' x y Heq Hne). reflexivity. Qed.

Lemma differ_get_default (k k' : string) (x y : dict) (dflt : value) :
  delete k x = delete k y -> k' <> k -> get_default x k' dflt = get_default y k' dflt.
Proof.
  intros Heq Hne. unfold get_default. rewrite (differ_lookup k k' x y Heq Hne). reflexivity.
Qed.

Lemma differ_length (k : string) (xs ys : list dict) :
  differ_only_in k xs ys -> len xs = len ys.
Proof. intros H. unfold len. f_equal. exact (Forall2_length _ _ _ H). Qed.

Lemma differ_truthy (k : string) (xs ys : list dict) :
  differ_only_in k xs ys -> list_truthy xs = list_truthy ys.
Proof. intros H. destruct H; reflexivity. Qed.

Lemma differ_map {B : Type} (k : string) (f : dict -> B) (xs ys : list dict) :
  (forall x y, delete k x = delete k y -> f x = f y) ->
  differ_only_in k xs ys -> map f xs = map f ys.
Proof.
  intros Hf H. induction H as [|x y xs ys Hxy _ IH]; [reflexivity|].
  cbn [map]. rewrite (Hf x y Hxy), IH. reflexivity.
Qed.

Lemma differ_count_from (k : string) (c : dict -> M bool) (xs ys : list dict) :
  (forall x y t, delete k x = delete k y -> c x t = c y t) ->
  differ_only_in k xs ys ->
  forall (acc : Z) (t : nat), count_from acc c xs t = count_from acc c ys t.
Proof.
  intros Hc H. induction H as [|x y xs ys Hxy _ IH]; intros acc t; [reflexivity|].
  cbn [count_from]. rewrite !run_bind, (Hc x y t Hxy).
  destruct (c y t) as [e|[b t']]; [reflexivity | apply IH].
Qed.

Lemma differ_documented (k : string) (xs ys : list dict) :
  k <> "description" -> differ_only_in k xs ys -> documented xs = documented ys.
Proof.
  intros Hk H. unfold documented, len. f_equal.
  induction H as [|x y xs ys Hxy _ IH]; [reflexivity|].
  cbn [List.filter]. rewrite (differ_get k "description" x y Hxy) by congruence.
  destruct (truthy (get y "description")); cbn [length]; rewrite IH; reflexivity.
Qed.

Lemma differ_language_keys (k : string) (xs ys : list dict) :
  k <> "language" -> differ_only_in k xs ys -> language_keys xs = language_keys ys.
Proof.
  intros Hk H. unfold language_keys. do 2 f_equal.
  apply (differ_map k); [|exact H].
  intros x y Hxy. apply (differ_get k); [exact Hxy | congruence].
Qed.

Lemma differ_star_values (k : string) (xs ys : list dict) :
  k <> "stargazers_count" -> differ_only_in k xs ys -> star_values xs = star_values ys.
Proof.
  intros Hk H. apply (differ_map k); [|exact H].
  intros x y Hxy. apply (differ_get_default k); [exact Hxy | congruence].
Qed.

Lemma differ_fork_values (k : string) (xs ys : list dict) :
  k <> "forks_count" -> differ_only_in k xs ys -> fork_values xs = fork_values ys.
Proof.
  intros Hk H. apply (differ_map k); [|exact H].
  intros x y Hxy. apply (differ_get_default k); [exact Hxy | congruence].
Qed.

Section RelatedRuns.

Variable strptime_fmt : string -> option datetime.
Variable clock : nat -> datetime.

Lemma differ_recent_loop (k : string) (xs ys : list dict) (acc : Z) (t : nat) :
  k <> "updated_at" -> differ_only_in k xs ys ->
  count_from acc
    (fun repo =>
       updated_at ← getitem repo "updated_at";
       updated ← strptime strptime_fmt updated_at;
       current ← now clock;
       mret (updated >? current - timedelta_days 90)) xs t
  = count_from acc
    (fun repo =>
       updated_at ← getitem repo "updated_at";
       updated ← strptime strptime_fmt updated_at;
       current ← now clock;
       mret (updated >? current - timedelta_days 90)) ys t.
Proof.
  intros Hk H. apply (differ_count_from k); [|exact H].
  intros x y t0 Hxy. rewrite !run_bind. unfold getitem.
  rewrite (differ_lookup k "updated_at" x y Hxy) by congruence. reflexivity.
Qed.

Lemma differ_measure (k : string) (xs ys : list dict) (t : nat) :
  k <> "stargazers_count" -> k <> "forks_count" -> k <> "updated_at" ->
  differ_only_in k xs ys ->
  measure strptime_fmt clock xs t = measure strptime_fmt clock ys t.
Proof.
  intros Hs Hf Hu H. unfold measure.
  rewrite (differ_star_values k xs ys Hs H), (differ_fork_values k xs ys Hf H).
  rewrite !run_bind.
  destruct (py_sum (star_values ys) t) as [e|[stars t1]]; [reflexivity|].
  rewrite !run_bind.
  destruct (py_sum (fork_values ys) t1) as [e|[forks t2]]; [reflexivity|].
  rewrite !run_bind. unfold count_if.
  rewrite (differ_recent_loop k xs ys 0 t2 Hu H). reflexivity.
Qed.

End RelatedRuns.

Lemma documentation_points_monotone (total d1 d2 : Z) :
  d1 <= d2 -> documentation_points d1 total <= documentation_points d2 total.
Proof.
  intros Hd. unfold documentation_points.
  repeat match goal with |- context [if ?a <=? ?b then _ else _] =>
    destruct (Z.leb_spec a b) end; lia.
Qed.

(** C8: take two collections that agree on everything but the
    descriptions, the second with at least as many documented records.  The
    documentation bucket of the second is at least that of the first, both
    calls end the same way, and when they return, the scores differ by the
    difference of the documentation buckets, so the second score is at
    least the first. *)
Theorem documentation_bucket_monotone :
  forall (strptime_fmt : string -> option datetime) (clock : nat -> datetime)
         (repos1 repos2 : list dict) (t : nat),
    differ_only_in "description" repos1 repos2 ->
    documented repos1 <= documented repos2 ->
    documentation_points (documented repos1) (len repos1)
      <= documentation_points (documented repos2) (len repos2) /\
    match analyze_repository_quality strptime_fmt clock repos1 t,
          analyze_repository_quality strptime_fmt clock repos2 t with
    | inr (r1, t1), inr (r2, t2) =>
        t1 = t2 /\
        score r2 - score r1 =
          documentation_points (documented repos2) (len repos2)
          - documentation_points (documented repos1) (len repos1) /\
        score r1 <= score r2
    | inl e1, inl e2 => e1 = e2
    | _, _ => False
    end.
Proof.
  intros strptime_fmt clock repos1 repos2 t Hrel Hdoc.
  pose proof (differ_length _ _ _ Hrel) as Hlen.
  assert (Hmono : documentation_points (documented repos1) (len repos1)
                  <= documentation_points (documented repos2) (len repos2)).
  { rewrite Hlen. apply documentation_points_monotone, Hdoc. }
  split; [exact Hmono|].
  destruct Hrel as [|x y xs ys Hxy Hrest].
  - cbn. repeat split; lia.
  - assert (Hrel : differ_only_in "description" (x :: xs) (y :: ys))
      by (constructor; assumption).
    pose proof (analyze_repository_quality_outcome strptime_fmt clock (x :: xs) t
                  ltac:(discriminate)) as H1.
    pose proof (analyze_repository_quality_outcome strptime_fmt clock (y :: ys) t
                  ltac:(discriminate)) as H2.
    rewrite (differ_measure strptime_fmt clock "description" _ _ t
               ltac:(discriminate) ltac:(discriminate) ltac:(discriminate) Hrel) in H1.
    unfold distinct_languages in H1.
    rewrite (differ_language_keys "description" _ _ ltac:(discriminate) Hrel) in H1.
    fold (distinct_languages (y :: ys)) in H1.
    destruct (analyze_repository_quality strptime_fmt clock (x :: xs) t) as [e1|[r1 t1]],
             (analyze_repository_quality strptime_fmt clock (y :: ys) t) as [e2|[r2 t2]],
             (measure strptime_fmt clock (y :: ys) t) as [e|[[stars recent] t']];
      try contradiction; try congruence.
    destruct H1 as (-> & Hs1 & _), H2 as (-> & Hs2 & _).
    split; [reflexivity|].
    assert (Hdiff : score r2 - score r1 =
              documentation_points (documented (y :: ys)) (len (y :: ys))
              - documentation_points (documented (x :: xs)) (len (x :: xs))).
    { rewrite Hs1, Hs2. unfold repository_points. rewrite Hlen. lia. }
    split; [exact Hdiff | lia].
Qed.

Lemma documentation_bucket_monotone_witness :
  documentation_points (documented Examples.twelve_repos_less_documented)
                       (len Examples.twelve_repos_less_documented)
    <= documentation_points (documented Examples.twelve_repos) (len Examples.twelve_repos) /\
  match analyze_repository_quality Iso8601.iso8601 Examples.steady_clock
          Examples.twelve_repos_less_documented 0%nat,
        analyze_repository_quality Iso8601.iso8601 Examples.steady_clock
          Examples.twelve_repos 0%nat with
  | inr (r1, t1), inr (r2, t2) =>
      t1 = t2 /\
      score r2 - score r1 =
        documentation_points (documented Examples.twelve_repos) (len Examples.twelve_repos)
        - documentation_points (documented Examples.twelve_repos_less_documented)
                               (len Examples.twelve_repos_less_documented) /\
      score r1 <= score r2
  | inl e1, inl e2 => e1 = e2
  | _, _ => False
  end.
Proof.
  apply (documentation_bucket_monotone Iso8601.iso8601 Examples.steady_clock
           Examples.twelve_repos_less_documented Examples.twelve_repos 0%nat).
  - unfold differ_only_in, Examples.twelve_repos_less_documented, Examples.twelve_repos.
    repeat constructor; vm_compute; reflexivity.
  - vm_compute. discriminate.
Defined.

(** C7: two collections that agree on everything but the fork counts (each
    fork count a number or absent) give the same result: the same score,
    the same detail lines, the same clock readings or the same exception. *)
Theorem fork_counts_do_not_matter :
  forall (strptime_fmt : string -> option datetime) (clock : nat -> datetime)
         (repos1 repos2 : list dict) (t : nat),
    differ_only_in "forks_count" repos1 repos2 ->
    forallb int_like (fork_values repos1) = true ->
    forallb int_like (fork_values repos2) = true ->
    analyze_repository_quality strptime_fmt clock repos1 t
    = analyze_repository_quality strptime_fmt clock repos2 t.
Proof.
  intros strptime_fmt clock repos1 repos2 t Hrel Hf1 Hf2.
  unfold analyze_repository_quality.
  rewrite (differ_truthy _ _ _ Hrel), (differ_length _ _ _ Hrel).
  destruct (list_truthy repos2); cbn [negb]; [|reflexivity].
  cbv zeta. rewrite !tier3, !run_bind. unfold count_if at 1 3.
  rewrite !count_from_pure. cbv beta iota.
  change (len (List.filter (fun x : dict => truthy (get x "description")) repos1))
    with (documented repos1).
  rewrite (differ_documented "forks_count" repos1 repos2 ltac:(discriminate) Hrel).
  rewrite !tier3, !run_bind, !languages_loop. cbv beta iota.
  rewrite (differ_language_keys "forks_count" repos1 repos2 ltac:(discriminate) Hrel).
  rewrite !tier3, !run_bind.
  change (map (fun repo : dict => get_default repo "stargazers_count" (VInt 0)) repos1)
    with (star_values repos1).
  change (map (fun repo : dict => get_default repo "stargazers_count" (VInt 0)) repos2)
    with (star_values repos2).
  rewrite (differ_star_values "forks_count" repos1 repos2 ltac:(discriminate) Hrel).
  destruct (py_sum (star_values repos2) t) as [e|[stars t1]]; [reflexivity|].
  rewrite !run_bind. unfold py_sum.
  change (map (fun repo : dict => get_default repo "forks_count" (VInt 0)) repos1)
    with (fork_values repos1).
  change (map (fun repo : dict => get_default repo "forks_count" (VInt 0)) repos2)
    with (fork_values repos2).
  rewrite !sum_from_ok by assumption.
  rewrite !tier3, !run_bind. unfold count_if.
  rewrite (differ_recent_loop strptime_fmt clock "forks_count" repos1 repos2 0 t1
             ltac:(discriminate) Hrel).
  reflexivity.
Qed.

Lemma fork_counts_do_not_matter_witness :
  analyze_repository_quality Iso8601.iso8601 Examples.steady_clock Examples.twelve_repos 0%nat
  = analyze_repository_quality Iso8601.iso8601 Examples.steady_clock
      Examples.twelve_repos_other_forks 0%nat.
Proof.
  apply (fork_counts_do_not_matter Iso8601.iso8601 Examples.steady_clock
           Examples.twelve_repos Examples.twelve_repos_other_forks 0%nat).
  - unfold differ_only_in, Examples.twelve_repos_other_forks, Examples.twelve_repos.
    cbn [map]. repeat constructor; vm_compute; reflexivity.
  - vm_compute. reflexivity.
  - vm_compute. reflexivity.
Defined.

(** ** Activity consistency *)

Section ActivityRuns.

Variable strptime_fmt : string -> option datetime.
Variable clock : nat -> datetime.

(** What a call of [analyze_activity_consistency] on a non-empty collection
    does: it raises what [newest_age] raises, and otherwise returns, after
    the same clock reading, the sum of the three buckets. *)
Lemma analyze_activity_consistency_outcome (events_data : list dict) (t : nat) :
  events_data <> [] ->
  match analyze_activity_consistency strptime_fmt clock events_data t,
        newest_age strptime_fmt clock events_data t with
  | inl e, inl e' => e = e'
  | inr (r, t'), inr (age, t'') =>
      t' = t'' /\
      score r = activity_points (len events_data) (distinct_event_types events_data) age /\
      length (details r) = 3%nat
  | _, _ => False
  end.
Proof.
  intros Hne. unfold analyze_activity_consistency, newest_age.
  rewrite (list_truthy_nonempty _ Hne). cbn [negb]. cbv zeta.
  rewrite !tier3, !run_bind.
  destruct (first_item events_data t) as [e|[newest t1]]; [reflexivity|].
  rewrite !run_bind.
  destruct (getitem newest "created_at" t1) as [e|[created_at t2]]; [reflexivity|].
  rewrite !run_bind.
  destruct (strptime strptime_fmt created_at t2) as [e|[latest t3]]; [reflexivity|].
  rewrite !run_bind. unfold now. rewrite !run_ret.
  unfold activity_points, volume_points, diversity_points, freshness_points,
    distinct_event_types, event_type_keys.
  rewrite !Z.geb_leb, size_list_to_set_distinct, !Z.add_0_l.
  destruct (days (clock t3 - latest) <=? 7); [|destruct (days (clock t3 - latest) <=? 30)];
    rewrite !run_ret; repeat split; reflexivity.
Qed.

Lemma newest_age_ok (newest : dict) (rest : list dict) (latest : datetime) (t : nat) :
  timestamp_of strptime_fmt "created_at" newest = Some latest ->
  newest_age strptime_fmt clock (newest :: rest) t = inr (days (clock t - latest), S t).
Proof.
  intros Hts. destruct (timestamp_lookup _ _ _ _ Hts) as (s & Hlookup & Hparse).
  unfold newest_age. cbn [first_item]. rewrite run_bind, run_ret.
  rewrite run_bind, (run_getitem _ _ _ _ Hlookup).
  rewrite run_bind, (run_strptime _ _ _ _ Hparse).
  rewrite run_bind, run_now, run_ret. reflexivity.
Qed.

Lemma activity_points_range (event_count distinct age_days : Z) :
  50 <= activity_points event_count distinct age_days <= 100.
Proof.
  unfold activity_points, volume_points, diversity_points, freshness_points.
  repeat match goal with |- context [if ?c then _ else _] => destruct c end; lia.
Qed.

(** The three analyzers never leave [0,100]. *)
Lemma repository_score_bounds (repos_data : list dict) (t t' : nat) (r : analysis) :
  analyze_repository_quality strptime_fmt clock repos_data t = inr (r, t') ->
  0 <= score r <= 100.
Proof.
  destruct repos_data as [|repo rest].
  - cbn. intros [= <- _]. cbn. lia.
  - intros Hrun.
    pose proof (analyze_repository_quality_outcome strptime_fmt clock (repo :: rest) t
                  ltac:(discriminate)) as H.
    rewrite Hrun in H.
    destruct (measure strptime_fmt clock (repo :: rest) t) as [e|[[stars recent] t'']];
      [contradiction|].
    destruct H as (_ & -> & _).
    pose proof (repository_points_range (len (repo :: rest)) (documented (repo :: rest))
                  (distinct_languages (repo :: rest)) stars recent). lia.
Qed.

Lemma activity_score_bounds (events_data : list dict) (t t' : nat) (r : analysis) :
  analyze_activity_consistency strptime_fmt clock events_data t = inr (r, t') ->
  0 <= score r <= 100.
Proof.
  destruct events_data as [|newest rest].
  - cbn. intros [= <- _]. cbn. lia.
  - intros Hrun.
    pose proof (analyze_activity_consistency_outcome (newest :: rest) t ltac:(discriminate)) as H.
    rewrite Hrun in H.
    destruct (newest_age strptime_fmt clock (newest :: rest) t) as [e|[age t'']];
      [contradiction|].
    destruct H as (_ & -> & _).
    pose proof (activity_points_range (len (newest :: rest))
                  (distinct_event_types (newest :: rest)) age). lia.
Qed.

Lemma profile_score_bounds (user_data : dict) (t t' : nat) (r : analysis) :
  analyze_profile_completeness user_data t = inr (r, t') -> 0 <= score r <= 100.
Proof.
  intros Hrun. pose proof (analyze_profile_completeness_outcome user_data t) as H.
  rewrite Hrun in H. destruct H as (_ & _ & -> & _). apply profile_points_range.
Qed.

(** On data of the shape of the API each analyzer returns. *)
Lemma profile_returns (user_data : dict) (t : nat) :
  user_ok user_data = true ->
  exists r, analyze_profile_completeness user_data t = inr (r, t).
Proof.
  intros Hok. pose proof (analyze_profile_completeness_outcome user_data t) as H.
  destruct (analyze_profile_completeness user_data t) as [e|[r t']].
  - destruct H as [_ H]. congruence.
  - destruct H as (-> & _). exists r. reflexivity.
Qed.

Lemma repository_returns (repos_data : list dict) (t : nat) :
  repos_ok strptime_fmt repos_data = true ->
  exists r, analyze_repository_quality strptime_fmt clock repos_data t
            = inr (r, (t + length repos_data)%nat).
Proof.
  intros Hok. destruct repos_data as [|repo rest].
  - eexists. cbn. rewrite Nat.add_0_r. reflexivity.
  - pose proof (analyze_repository_quality_outcome strptime_fmt clock (repo :: rest) t
                  ltac:(discriminate)) as H.
    rewrite (measure_ok _ _ _ _ Hok) in H.
    destruct (analyze_repository_quality strptime_fmt clock (repo :: rest) t) as [e|[r t']];
      [contradiction|].
    destruct H as (-> & _). exists r. reflexivity.
Qed.

Lemma activity_returns (events_data : list dict) (t : nat) :
  events_ok strptime_fmt events_data = true ->
  exists r, analyze_activity_consistency strptime_fmt clock events_data t
            = inr (r, (t + (if list_truthy events_data then 1 else 0))%nat).
Proof.
  intros Hok. destruct events_data as [|newest rest].
  - eexists. cbn. rewrite Nat.add_0_r. reflexivity.
  - cbn [events_ok] in Hok. unfold has_timestamp in Hok.
    destruct (timestamp_of strptime_fmt "created_at" newest) as [latest|] eqn:Hts;
      [|discriminate].
    pose proof (analyze_activity_consistency_outcome (newest :: rest) t ltac:(discriminate)) as H.
    rewrite (newest_age_ok _ _ _ _ Hts) in H.
    destruct (analyze_activity_consistency strptime_fmt clock (newest :: rest) t)
      as [e|[r t']]; [contradiction|].
    destruct H as (-> & _). exists r. cbn [list_truthy]. rewrite Nat.add_1_r. reflexivity.
Qed.

(** ** The aggregation in [main] *)

Lemma main_outcome (data : github_data) (t : nat) :
  main strptime_fmt clock data t =
  match analyze_profile_completeness (user data) t with
  | inl e => inl e
  | inr (p, t1) =>
      match analyze_repository_quality strptime_fmt clock (repos data) t1 with
      | inl e => inl e
      | inr (r, t2) =>
          match analyze_activity_consistency strptime_fmt clock (events data) t2 with
          | inl e => inl e
          | inr (a, t3) =>
              inr ({| profile_analysis := p; repo_analysis := r; activity_analysis := a;
                      total_score := score p + score r + score a;
                      printed := print_closing (print_recommendations [] p r a)
                                               (score p + score r + score a) |}, t3)
          end
      end
  end.
Proof.
  unfold main. rewrite run_bind.
  destruct (analyze_profile_completeness (user data) t) as [e|[p t1]]; [reflexivity|].
  rewrite run_bind.
  destruct (analyze_repository_quality strptime_fmt clock (repos data) t1) as [e|[r t2]];
    [reflexivity|].
  rewrite run_bind.
  destruct (analyze_activity_consistency strptime_fmt clock (events data) t2) as [e|[a t3]];
    reflexivity.
Qed.

Lemma main_returns (data : github_data) (t : nat) :
  data_ok strptime_fmt data = true ->
  exists rep, main strptime_fmt clock data t = inr (rep, (t + readings data)%nat).
Proof.
  unfold data_ok. intros Hok. apply andb_prop in Hok as [Hok He].
  apply andb_prop in Hok as [Hu Hr].
  destruct (profile_returns (user data) t Hu) as [p Hp].
  destruct (repository_returns (repos data) t Hr) as [r Hrun].
  destruct (activity_returns (events data) (t + length (repos data)) He) as [a Ha].
  rewrite main_outcome, Hp, Hrun, Ha. eexists. unfold readings.
  rewrite Nat.add_assoc. reflexivity.
Qed.


(** A completed run of [main] is a completed run of the three analyzers on
    the three parts of the data, in this order and on the same clock; the
    report holds their results, and the total is their sum. *)
Lemma main_parts (data : github_data) (t t' : nat) (rep : report) :
  main strptime_fmt clock data t = inr (rep, t') ->
  exists t1 t2,
    analyze_profile_completeness (user data) t = inr (profile_analysis rep, t1) /\
    analyze_repository_quality strptime_fmt clock (repos data) t1
      = inr (repo_analysis rep, t2) /\
    analyze_activity_consistency strptime_fmt clock (events data) t2
      = inr (activity_analysis rep, t') /\
    total_score rep = score (profile_analysis rep) + score (repo_analysis rep)
                      + score (activity_analysis rep).
Proof.
  rewrite main_outcome.
  destruct (analyze_profile_completeness (user data) t) as [e|[p t1]] eqn:Hp; [discriminate|].
  destruct (analyze_repository_quality strptime_fmt clock (repos data) t1) as [e|[r t2]] eqn:Hr;
    [discriminate|].
  destruct (analyze_activity_consistency strptime_fmt clock (events data) t2)
    as [e|[a t3]] eqn:Ha; [discriminate|].
  intros [= <- <-]. exists t1, t2. cbn [profile_analysis repo_analysis activity_analysis total_score].
  rewrite Hr, Ha. repeat split; reflexivity.
Qed.

(** Conversely, when the three analyzers return in turn, [main] returns
    their results, the sum of their scores and the lines of the two print
    blocks. *)
Lemma main_from_parts (data : github_data) (t t1 t2 t3 : nat) (p r a : analysis) :
  analyze_profile_completeness (user data) t = inr (p, t1) ->
  analyze_repository_quality strptime_fmt clock (repos data) t1 = inr (r, t2) ->
  analyze_activity_consistency strptime_fmt clock (events data) t2 = inr (a, t3) ->
  main strptime_fmt clock data t
  = inr ({| profile_analysis := p; repo_analysis := r; activity_analysis := a;
            total_score := score p + score r + score a;
            printed := print_closing (print_recommendations [] p r a)
                                     (score p + score r + score a) |}, t3).
Proof. intros Hp Hr Ha. rewrite main_outcome, Hp, Hr, Ha. reflexivity. Qed.

End ActivityRuns.

(** The scenario of the specification: 25 events of 4 types, the newest
    3 days old, score 40 + 20 + 20. *)
Example activity_scenario :
  exists r, analyze_activity_consistency Iso8601.iso8601 Examples.steady_clock
              Examples.twenty_five_events 0%nat = inr (r, 1%nat) /\ score r = 80.
Proof. eexists. split; vm_compute; reflexivity. Qed.

(** C5: on the empty repository collection and on the empty event
    collection the analyzers return score 0 with exactly one detail line;
    they raise nothing, parse no timestamp and do not read the clock. *)
Theorem empty_collections_score_zero :
  forall (strptime_fmt : string -> option datetime) (clock : nat -> datetime) (t : nat),
    analyze_repository_quality strptime_fmt clock [] t =
      inr ({| score := 0;
              details := [[Text Colors.FAIL; Text "✗ No repositories"; Text Colors.ENDC]] |}, t) /\
    analyze_activity_consistency strptime_fmt clock [] t =
      inr ({| score := 0;
              details := [[Text Colors.FAIL; Text "✗ No recent activity"; Text Colors.ENDC]] |}, t).
Proof. intros strptime_fmt clock t. split; reflexivity. Qed.

(** ** Recommendations and tier *)

Lemma print_recommendations_lines (out : list fstring) (p r a : analysis) :
  print_recommendations out p r a
  = out ++ recommendation_lines (score p) (score r) (score a).
Proof.
  unfold print_recommendations, recommendation_lines, profile_remarks, repository_remarks,
    activity_remarks, print, remark, recommendations_header.
  cbv zeta.
  destruct (score p <? 80), (score r <? 80), (score a <? 80);
    repeat rewrite <- app_assoc; reflexivity.
Qed.

Lemma print_closing_line (out : list fstring) (total : Z) :
  print_closing out total = out ++ [closing_remark (tier_of total)].
Proof.
  unfold print_closing, tier_of, print. rewrite !Z.geb_leb.
  destruct (240 <=? total); [reflexivity|]. destruct (180 <=? total); reflexivity.
Qed.

Lemma closing_remark_inj (t1 t2 : tier) : closing_remark t1 = closing_remark t2 -> t1 = t2.
Proof. destruct t1, t2; intros H; try reflexivity; discriminate H. Qed.

Lemma tier_of_excellent (total : Z) : tier_of total = Excellent <-> 240 <= total.
Proof.
  unfold tier_of. destruct (Z.leb_spec 240 total); [tauto|].
  destruct (Z.leb_spec 180 total); split; intros; try discriminate; lia.
Qed.

Lemma tier_of_good (total : Z) : tier_of total = Good <-> 180 <= total < 240.
Proof.
  unfold tier_of. destruct (Z.leb_spec 240 total).
  - split; intros; try discriminate; lia.
  - destruct (Z.leb_spec 180 total); split; intros; try discriminate; try lia; reflexivity.
Qed.

Lemma tier_of_needs_improvement (total : Z) : tier_of total = NeedsImprovement <-> total < 180.
Proof.
  unfold tier_of. destruct (Z.leb_spec 240 total).
  - split; intros; try discriminate; lia.
  - destruct (Z.leb_spec 180 total); split; intros; try discriminate; try lia; reflexivity.
Qed.

Lemma print_closing_tier (out : list fstring) (total : Z) (ti : tier) :
  print_closing out total = out ++ [closing_remark ti] <-> tier_of total = ti.
Proof.
  rewrite print_closing_line. split.
  - intros H. apply app_inv_head in H. injection H as H. apply closing_remark_inj, H.
  - intros ->. reflexivity.
Qed.

(** C2: the closing line printed for a total is the "excellent" line
    exactly when the total is at least 240, the "good" line exactly when it
    is at least 180 and below 240, and the "needs improvement" line exactly
    when it is below 180; so 240 is excellent, 239 and 180 are good and 179
    needs improvement. *)
Theorem tier_boundaries_exact :
  forall (out : list fstring) (total : Z),
    (print_closing out total = out ++ [closing_remark Excellent] <-> 240 <= total) /\
    (print_closing out total = out ++ [closing_remark Good] <-> 180 <= total < 240) /\
    (print_closing out total = out ++ [closing_remark NeedsImprovement] <-> total < 180) /\
    print_closing out 240 = out ++ [closing_remark Excellent] /\
    print_closing out 239 = out ++ [closing_remark Good] /\
    print_closing out 180 = out ++ [closing_remark Good] /\
    print_closing out 179 = out ++ [closing_remark NeedsImprovement].
Proof.
  intros out total.
  rewrite !print_closing_tier, tier_of_excellent, tier_of_good, tier_of_needs_improvement.
  repeat split; intros; try assumption; try lia; reflexivity.
Qed.

(** C9: the lines a run prints from the recommendations header on are a
    function of the three scores the analyzers return on the data.  When
    the analyzers return in turn, [main] returns their results and prints
    the header, then the profile remark if the profile score is below 80,
    then the two repository remarks if the repository score is below 80,
    then the activity remark if the activity score is below 80, then the
    one closing line of the tier of the sum; a score of 80 or more adds no
    line.  Every completed run is of this kind, its lines are those of the
    two print blocks of [main], and two runs with the same three scores
    print the same lines. *)
Theorem recommendations_follow_scores :
  forall (strptime_fmt : string -> option datetime) (clock : nat -> datetime)
         (data : github_data) (t : nat),
    (forall (p r a : analysis) (t1 t2 t3 : nat),
       analyze_profile_completeness (user data) t = inr (p, t1) ->
       analyze_repository_quality strptime_fmt clock (repos data) t1 = inr (r, t2) ->
       analyze_activity_consistency strptime_fmt clock (events data) t2 = inr (a, t3) ->
       exists rep : report,
         main strptime_fmt clock data t = inr (rep, t3) /\
         profile_analysis rep = p /\ repo_analysis rep = r /\ activity_analysis rep = a /\
         printed rep =
           recommendations_header ::
           (if score p <? 80
            then [remark Colors.WARNING "• Complete your profile with missing information"]
            else []) ++
           (if score r <? 80
            then [remark Colors.WARNING "• Add descriptions to your repositories";
                  remark Colors.WARNING "• Diversify your programming languages"]
            else []) ++
           (if score a <? 80
            then [remark Colors.WARNING "• Increase your GitHub activity and consistency"]
            else []) ++
           [closing_remark (tier_of (score p + score r + score a))]) /\
    (forall (rep : report) (t' : nat),
       main strptime_fmt clock data t = inr (rep, t') ->
       (exists t1 t2 : nat,
          analyze_profile_completeness (user data) t = inr (profile_analysis rep, t1) /\
          analyze_repository_quality strptime_fmt clock (repos data) t1
            = inr (repo_analysis rep, t2) /\
          analyze_activity_consistency strptime_fmt clock (events data) t2
            = inr (activity_analysis rep, t')) /\
       let p := score (profile_analysis rep) in
       let r := score (repo_analysis rep) in
       let a := score (activity_analysis rep) in
       printed rep =
         print_closing
           (print_recommendations [] (profile_analysis rep) (repo_analysis rep)
              (activity_analysis rep))
           (p + r + a) /\
       printed rep =
         recommendations_header ::
         (if p <? 80
          then [remark Colors.WARNING "• Complete your profile with missing information"]
          else []) ++
         (if r <? 80
          then [remark Colors.WARNING "• Add descriptions to your repositories";
                remark Colors.WARNING "• Diversify your programming languages"]
          else []) ++
         (if a <? 80
          then [remark Colors.WARNING "• Increase your GitHub activity and consistency"]
          else []) ++
         [closing_remark (tier_of (p + r + a))] /\
       forall (strptime_fmt2 : string -> option datetime) (clock2 : nat -> datetime)
              (data2 : github_data) (t2 : nat) (rep2 : report) (t2' : nat),
         main strptime_fmt2 clock2 data2 t2 = inr (rep2, t2') ->
         score (profile_analysis rep2) = p ->
         score (repo_analysis rep2) = r ->
         score (activity_analysis rep2) = a ->
         printed rep2 = printed rep) /\
    (data_ok strptime_fmt data = true ->
     exists rep, main strptime_fmt clock data t = inr (rep, (t + readings data)%nat)).
Proof.
  assert (Hlines : forall p r a : analysis,
            print_closing (print_recommendations [] p r a) (score p + score r + score a) =
            recommendations_header ::
            (if score p <? 80
             then [remark Colors.WARNING "• Complete your profile with missing information"]
             else []) ++
            (if score r <? 80
             then [remark Colors.WARNING "• Add descriptions to your repositories";
                   remark Colors.WARNING "• Diversify your programming languages"]
             else []) ++
            (if score a <? 80
             then [remark Colors.WARNING "• Increase your GitHub activity and consistency"]
             else []) ++
            [closing_remark (tier_of (score p + score r + score a))]).
  { intros p r a. rewrite print_closing_line, print_recommendations_lines.
    unfold recommendation_lines, profile_remarks, repository_remarks, activity_remarks.
    cbn [app]. rewrite <- !app_assoc. reflexivity. }
  assert (Hprinted : forall strptime_fmt clock data t rep t',
            main strptime_fmt clock data t = inr (rep, t') ->
            printed rep =
              print_closing
                (print_recommendations [] (profile_analysis rep) (repo_analysis rep)
                   (activity_analysis rep))
                (score (profile_analysis rep) + score (repo_analysis rep)
                 + score (activity_analysis rep))).
  { intros strptime_fmt clock data t rep t' Hrun.
    destruct (main_parts _ _ _ _ _ _ Hrun) as (t1 & t2 & Hp & Hr & Ha & _).
    rewrite (main_from_parts _ _ _ _ _ _ _ _ _ _ Hp Hr Ha) in Hrun.
    injection Hrun as <-. reflexivity. }
  intros strptime_fmt clock data t. split; [|split].
  - intros p r a t1 t2 t3 Hp Hr Ha. eexists.
    split; [apply (main_from_parts _ _ _ _ _ _ _ _ _ _ Hp Hr Ha)|].
    cbn [profile_analysis repo_analysis activity_analysis printed].
    repeat split. apply Hlines.
  - intros rep t' Hrun. split.
    + destruct (main_parts _ _ _ _ _ _ Hrun) as (t1 & t2 & Hp & Hr & Ha & _).
      exists t1, t2. repeat split; assumption.
    + cbv zeta. split; [apply (Hprinted _ _ _ _ _ _ Hrun)|]. split.
      * rewrite (Hprinted _ _ _ _ _ _ Hrun). apply Hlines.
      * intros strptime_fmt2 clock2 data2 t2 rep2 t2' Hrun2 Hp Hr Ha.
        rewrite (Hprinted _ _ _ _ _ _ Hrun), (Hprinted _ _ _ _ _ _ Hrun2), !Hlines, Hp, Hr, Ha.
        reflexivity.
  - apply main_returns.
Qed.

(** C3: the total of a run is the plain sum of the three scores the
    analyzers return on the data, with no clamping.  On data of the shape
    of the API a run completes; when the analyzers return in turn, [main]
    returns their results with the sum of their scores as total; every
    completed run is of this kind, each of its scores lies in [0,100] and
    its total in [0,300]. *)
Theorem composite_total_is_sum :
  forall (strptime_fmt : string -> option datetime) (clock : nat -> datetime)
         (data : github_data) (t : nat),
    (data_ok strptime_fmt data = true ->
     exists rep, main strptime_fmt clock data t = inr (rep, (t + readings data)%nat)) /\
    (forall (p r a : analysis) (t1 t2 t3 : nat),
       analyze_profile_completeness (user data) t = inr (p, t1) ->
       analyze_repository_quality strptime_fmt clock (repos data) t1 = inr (r, t2) ->
       analyze_activity_consistency strptime_fmt clock (events data) t2 = inr (a, t3) ->
       exists rep : report,
         main strptime_fmt clock data t = inr (rep, t3) /\
         profile_analysis rep = p /\ repo_analysis rep = r /\ activity_analysis rep = a /\
         total_score rep = score p + score r + score a /\
         0 <= total_score rep <= 300) /\
    (forall (rep : report) (t' : nat),
       main strptime_fmt clock data t = inr (rep, t') ->
       (exists t1 t2 : nat,
          analyze_profile_completeness (user data) t = inr (profile_analysis rep, t1) /\
          analyze_repository_quality strptime_fmt clock (repos data) t1
            = inr (repo_analysis rep, t2) /\
          analyze_activity_consistency strptime_fmt clock (events data) t2
            = inr (activity_analysis rep, t')) /\
       total_score rep
         = score (profile_analysis rep) + score (repo_analysis rep)
           + score (activity_analysis rep) /\
       0 <= score (profile_analysis rep) <= 100 /\
       0 <= score (repo_analysis rep) <= 100 /\
       0 <= score (activity_analysis rep) <= 100 /\
       0 <= total_score rep <= 300).
Proof.
  intros strptime_fmt clock data t. split; [apply main_returns|]. split.
  - intros p r a t1 t2 t3 Hp Hr Ha. eexists.
    split; [apply (main_from_parts _ _ _ _ _ _ _ _ _ _ Hp Hr Ha)|].
    cbn [profile_analysis repo_analysis activity_analysis total_score].
    pose proof (profile_score_bounds _ _ _ _ Hp).
    pose proof (repository_score_bounds _ _ _ _ _ _ Hr).
    pose proof (activity_score_bounds _ _ _ _ _ _ Ha).
    repeat split; lia.
  - intros rep t' Hrun.
    destruct (main_parts _ _ _ _ _ _ Hrun) as (t1 & t2 & Hp & Hr & Ha & Htotal).
    pose proof (profile_score_bounds _ _ _ _ Hp).
    pose proof (repository_score_bounds _ _ _ _ _ _ Hr).
    pose proof (activity_score_bounds _ _ _ _ _ _ Ha).
    split; [exists t1, t2; repeat split; assumption|].
    repeat split; lia.
Qed.

Lemma recommendations_follow_scores_witness :
  (exists t1 t2 : nat,
     analyze_profile_completeness Examples.named_profile 0%nat
       = inr (profile_analysis Examples.sample_report, t1) /\
     analyze_repository_quality Iso8601.iso8601 Examples.steady_clock Examples.twelve_repos t1
       = inr (repo_analysis Examples.sample_report, t2) /\
     analyze_activity_consistency Iso8601.iso8601 Examples.steady_clock
       Examples.twenty_five_events t2
       = inr (activity_analysis Examples.sample_report, 13%nat)) /\
  printed Examples.sample_report =
    [recommendations_header;
     remark Colors.WARNING "• Complete your profile with missing information";
     closing_remark Good].
Proof.
  destruct (recommendations_follow_scores Iso8601.iso8601 Examples.steady_clock
              Examples.sample_data 0%nat) as (_ & Hrun & _).
  destruct (Hrun Examples.sample_report 13%nat) as (Hparts & _ & Hprinted & _).
  - vm_compute. reflexivity.
  - split; [exact Hparts|]. rewrite Hprinted. reflexivity.
Defined.

Lemma composite_total_is_sum_witness :
  main Iso8601.iso8601 Examples.steady_clock Examples.sample_data 0%nat
    = inr (Examples.sample_report, 13%nat) /\
  (exists t1 t2 : nat,
     analyze_profile_completeness Examples.named_profile 0%nat
       = inr (profile_analysis Examples.sample_report, t1) /\
     analyze_repository_quality Iso8601.iso8601 Examples.steady_clock Examples.twelve_repos t1
       = inr (repo_analysis Examples.sample_report, t2) /\
     analyze_activity_consistency Iso8601.iso8601 Examples.steady_clock
       Examples.twenty_five_events t2
       = inr (activity_analysis Examples.sample_report, 13%nat)) /\
  total_score Examples.sample_report = 25 + 90 + 80 /\
  0 <= total_score Examples.sample_report <= 300.
Proof.
  assert (Hrun : main Iso8601.iso8601 Examples.steady_clock Examples.sample_data 0%nat
                 = inr (Examples.sample_report, 13%nat)) by (vm_compute; reflexivity).
  destruct (composite_total_is_sum Iso8601.iso8601 Examples.steady_clock
              Examples.sample_data 0%nat) as (_ & _ & Hsum).
  destruct (Hsum _ _ Hrun) as (Hparts & Htotal & _ & _ & _ & Hrange).
  split; [exact Hrun|]. split; [exact Hparts|].
  split; [rewrite Htotal; reflexivity | exact Hrange].
Defined.

(** ** The clock readings of a run *)

Section ClockReadings.

Variable strptime_fmt : string -> option datetime.
Variables clock1 clock2 : nat -> datetime.

Lemma recent_count_ext (repos_data : list dict) (t : nat) :
  (forall i, (i < length repos_data)%nat -> clock1 (t + i)%nat = clock2 (t + i)%nat) ->
  recent_count strptime_fmt clock1 t repos_data = recent_count strptime_fmt clock2 t repos_data.
Proof.
  revert t. induction repos_data as [|repo rest IH]; intros t Hagree; [reflexivity|].
  cbn [recent_count].
  assert (Hnow : clock1 t = clock2 t).
  { rewrite <- (Nat.add_0_r t). apply Hagree. cbn [length]. lia. }
  rewrite Hnow. f_equal. apply IH. intros i Hi.
  replace (S t + i)%nat with (t + S i)%nat by lia. apply Hagree. cbn [length]. lia.
Qed.

(** The repository analysis depends on the clock through the readings it
    makes, one per record. *)
Lemma repository_clock_ext (repos_data : list dict) (t : nat) :
  repos_ok strptime_fmt repos_data = true ->
  (forall i, (i < length repos_data)%nat -> clock1 (t + i)%nat = clock2 (t + i)%nat) ->
  analyze_repository_quality strptime_fmt clock1 repos_data t
  = analyze_repository_quality strptime_fmt clock2 repos_data t.
Proof.
  intros Hok Hagree. unfold analyze_repository_quality.
  destruct (list_truthy repos_data); cbn [negb]; [|reflexivity].
  cbv zeta. unfold count_if, py_sum.
  rewrite !tier3, !run_bind, !count_from_pure. cbv beta iota.
  rewrite !tier3, !run_bind, !languages_loop. cbv beta iota.
  rewrite !tier3, !run_bind.
  change (map (fun repo : dict => get_default repo "stargazers_count" (VInt 0)) repos_data)
    with (star_values repos_data).
  rewrite !sum_from_ok by (apply (repos_ok_stars strptime_fmt), Hok).
  rewrite !run_bind.
  change (map (fun repo : dict => get_default repo "forks_count" (VInt 0)) repos_data)
    with (fork_values repos_data).
  rewrite !sum_from_ok by (apply (repos_ok_forks strptime_fmt), Hok).
  rewrite !tier3, !run_bind.
  rewrite !recent_loop by (apply repos_ok_timestamps, Hok).
  rewrite (recent_count_ext repos_data t Hagree). reflexivity.
Qed.

(** The activity analysis depends on the clock through its one reading. *)
Lemma activity_clock_ext (events_data : list dict) (t : nat) :
  events_ok strptime_fmt events_data = true ->
  (events_data <> [] -> clock1 t = clock2 t) ->
  analyze_activity_consistency strptime_fmt clock1 events_data t
  = analyze_activity_consistency strptime_fmt clock2 events_data t.
Proof.
  intros Hok Hagree. destruct events_data as [|newest rest]; [reflexivity|].
  cbn [events_ok] in Hok. unfold has_timestamp in Hok.
  destruct (timestamp_of strptime_fmt "created_at" newest) as [latest|] eqn:Hts;
    [|discriminate].
  destruct (timestamp_lookup _ _ _ _ Hts) as (s & Hlookup & Hparse).
  unfold analyze_activity_consistency. cbn [list_truthy negb first_item]. cbv zeta.
  rewrite !tier3, !run_bind, !run_ret.
  rewrite !run_bind, !(run_getitem _ _ _ _ Hlookup).
  rewrite !run_bind, !(run_strptime _ _ _ _ Hparse).
  rewrite !run_bind, !run_now, (Hagree ltac:(discriminate)). reflexivity.
Qed.

End ClockReadings.

(** C6, as the code has it: every recency check reads the clock when it is
    evaluated.  On data of the shape of the API a run makes one reading per
    repository record and one more for the newest event; record number i is
    compared with reading i and the newest event with the reading after the
    last record.  The result depends on the clock through these readings
    only: two clocks that agree on them give the same result, so when all
    of them show the same time the result is that of a single captured
    time. *)
Theorem run_depends_on_its_readings :
  forall (strptime_fmt : string -> option datetime) (clock1 clock2 : nat -> datetime)
         (data : github_data) (t : nat),
    data_ok strptime_fmt data = true ->
    (forall i, (i < readings data)%nat -> clock1 (t + i)%nat = clock2 (t + i)%nat) ->
    main strptime_fmt clock1 data t = main strptime_fmt clock2 data t /\
    exists rep : report,
      main strptime_fmt clock1 data t = inr (rep, (t + readings data)%nat) /\
      (repos data <> [] ->
       score (repo_analysis rep) =
         repository_points (len (repos data)) (documented (repos data))
           (distinct_languages (repos data)) (total_stars (repos data))
           (recent_count strptime_fmt clock1 t (repos data))) /\
      (forall newest rest latest,
         events data = newest :: rest ->
         timestamp_of strptime_fmt "created_at" newest = Some latest ->
         score (activity_analysis rep) =
           activity_points (len (events data)) (distinct_event_types (events data))
             (days (clock1 (t + length (repos data))%nat - latest))).
Proof.
  intros strptime_fmt clock1 clock2 data t Hok Hagree.
  pose proof Hok as Hparts. unfold data_ok in Hparts.
  apply andb_prop in Hparts as [Hparts He]. apply andb_prop in Hparts as [Hu Hr].
  destruct (profile_returns (user data) t Hu) as [p Hp].
  destruct (repository_returns strptime_fmt clock1 (repos data) t Hr) as [r Hrun].
  destruct (activity_returns strptime_fmt clock1 (events data) (t + length (repos data)) He)
    as [a Ha].
  assert (Hmain : main strptime_fmt clock1 data t
                  = inr ({| profile_analysis := p; repo_analysis := r; activity_analysis := a;
                            total_score := score p + score r + score a;
                            printed := print_closing (print_recommendations [] p r a)
                                         (score p + score r + score a) |},
                         (t + readings data)%nat)).
  { rewrite main_outcome, Hp, Hrun, Ha. unfold readings. rewrite Nat.add_assoc. reflexivity. }
  split.
  - rewrite Hmain, main_outcome, Hp.
    rewrite <- (repository_clock_ext strptime_fmt clock1 clock2 (repos data) t Hr), Hrun.
    + rewrite <- (activity_clock_ext strptime_fmt clock1 clock2 (events data) _ He), Ha.
      * unfold readings. rewrite Nat.add_assoc. reflexivity.
      * intros Hne. rewrite <- (Nat.add_0_r (length (repos data))), Nat.add_assoc.
        rewrite Nat.add_0_r. apply Hagree. unfold readings.
        rewrite (list_truthy_nonempty _ Hne). lia.
    + intros i Hi. apply Hagree. unfold readings. lia.
  - eexists. split; [exact Hmain|]. cbn [repo_analysis activity_analysis]. split.
    + intros Hne.
      pose proof (analyze_repository_quality_outcome strptime_fmt clock1 (repos data) t Hne) as H.
      rewrite Hrun, (measure_ok _ _ _ _ Hr) in H. destruct H as (_ & H & _). exact H.
    + intros newest rest latest Hev Hts.
      pose proof (analyze_activity_consistency_outcome strptime_fmt clock1 (events data)
                    (t + length (repos data))) as H.
      rewrite Ha, Hev in H. specialize (H ltac:(discriminate)).
      rewrite (newest_age_ok _ _ _ _ _ _ Hts) in H. destruct H as (_ & H & _).
      rewrite Hev. exact H.
Qed.

Lemma run_depends_on_its_readings_witness :
  main Iso8601.iso8601 Examples.steady_clock Examples.skew_data 0%nat
  = main Iso8601.iso8601 (Examples.late_jump_clock 2) Examples.skew_data 0%nat.
Proof.
  apply (run_depends_on_its_readings Iso8601.iso8601 Examples.steady_clock
           (Examples.late_jump_clock 2) Examples.skew_data 0%nat).
  - vm_compute. reflexivity.
  - intros i Hi. change (readings Examples.skew_data) with 2%nat in Hi.
    destruct i as [|[|i]]; [reflexivity | reflexivity | lia].
Defined.

(** C6, as the specification words it, fails: no single clock reading
    determines the result of a run.  Whatever reading [k] is held fixed,
    moving the other readings changes the result on [Examples.skew_data]. *)
Lemma no_single_reading_determines_the_run :
  ~ exists k : nat,
      forall clock1 clock2 : nat -> datetime,
        clock1 k = clock2 k ->
        main Iso8601.iso8601 clock1 Examples.skew_data 0%nat
        = main Iso8601.iso8601 clock2 Examples.skew_data 0%nat.
Proof.
  intros [k Hk].
  specialize (Hk Examples.steady_clock (Examples.jumping_clock k)).
  destruct k as [|[|k]].
  - specialize (Hk eq_refl). vm_compute in Hk. discriminate Hk.
  - specialize (Hk eq_refl). vm_compute in Hk. discriminate Hk.
  - assert (Hsame : Examples.steady_clock (S (S k)) = Examples.jumping_clock (S (S k)) (S (S k))).
    { unfold Examples.steady_clock, Examples.jumping_clock. rewrite Nat.eqb_refl. reflexivity. }
    specialize (Hk Hsame). vm_compute in Hk. discriminate Hk.
Qed.

(** ** Binary64 against exact rationals *)

Lemma binary64_agrees_upto_100 : Binary64.agree_upto 100 = true.
Proof. vm_compute. reflexivity. Qed.

(** X19: for every collection of at most 100 records, the page size of the
    fetch, the bucket decisions the source takes on binary64 floats (the
    documentation percentage against 80 and 60, the recent count against
    [repo_count * 0.5] and [repo_count * 0.3]) are those of exact rational
    arithmetic. *)
Lemma binary64_decisions_exact (k n : nat) :
  (1 <= n <= 100)%nat -> (k <= n)%nat ->
  Binary64.doc_decisions (Z.of_nat k) (Z.of_nat n)
    = Binary64.exact_doc_decisions (Z.of_nat k) (Z.of_nat n) /\
  Binary64.recency_decisions (Z.of_nat k) (Z.of_nat n)
    = Binary64.exact_recency_decisions (Z.of_nat k) (Z.of_nat n).
Proof.
  intros Hn Hk. pose proof binary64_agrees_upto_100 as H.
  unfold Binary64.agree_upto in H. rewrite forallb_forall in H.
  specialize (H n ltac:(apply in_seq; lia)). rewrite forallb_forall in H.
  specialize (H k ltac:(apply in_seq; lia)). unfold Binary64.agree_at in H.
  apply andb_prop in H as [Hdoc Hrec]. unfold Binary64.same_decisions in *.
  apply andb_prop in Hdoc as [Hd1 Hd2]. apply andb_prop in Hrec as [Hr1 Hr2].
  apply Bool.eqb_prop in Hd1, Hd2, Hr1, Hr2.
  split; apply injective_projections; assumption.
Qed.

(** ** Further properties: activity consistency *)

Lemma days_le (td n : Z) : (days td <=? n) = (td <? timedelta_days (n + 1)).
Proof.
  unfold days, timedelta_days, us_per_day.
  apply Bool.eq_iff_eq_true. rewrite Z.leb_le, Z.ltb_lt.
  pose proof (Z.div_mod td (86400 * 1000000) ltac:(lia)) as Hdiv.
  pose proof (Z.mod_pos_bound td (86400 * 1000000) ltac:(lia)) as Hmod.
  lia.
Qed.

(** X1: on a non-empty event list whose first record carries a parseable
    [created_at], the activity analysis returns after one clock reading
    with three detail lines; its score is the sum of the volume bucket
    (50/40/25 at >= 50 / >= 20 events), the diversity bucket (30/20/15 at
    >= 5 / >= 3 distinct types) and the freshness bucket (20/15/10 at
    <= 7 / <= 30 whole days since the first record), and lies in
    [50,100]. *)
Theorem activity_score_is_bucket_sum :
  forall (strptime_fmt : string -> option datetime) (clock : nat -> datetime)
         (newest : dict) (rest : list dict) (latest : datetime) (t : nat),
    timestamp_of strptime_fmt "created_at" newest = Some latest ->
    exists r : analysis,
      analyze_activity_consistency strptime_fmt clock (newest :: rest) t = inr (r, S t) /\
      let event_count := len (newest :: rest) in
      let distinct := distinct_event_types (newest :: rest) in
      let age := (clock t - latest) / (86400 * 1000000) in
      score r =
        (if 50 <=? event_count then 50 else if 20 <=? event_count then 40 else 25) +
        (if 5 <=? distinct then 30 else if 3 <=? distinct then 20 else 15) +
        (if age <=? 7 then 20 else if age <=? 30 then 15 else 10) /\
      50 <= score r <= 100 /\
      length (details r) = 3%nat.
Proof.
  intros strptime_fmt clock newest rest latest t Hts.
  pose proof (analyze_activity_consistency_outcome strptime_fmt clock (newest :: rest) t
                ltac:(discriminate)) as H.
  rewrite (newest_age_ok _ _ _ _ _ _ Hts) in H.
  destruct (analyze_activity_consistency strptime_fmt clock (newest :: rest) t) as [e|[r t']];
    [contradiction|].
  destruct H as (-> & Hscore & Hlen). exists r. split; [reflexivity|].
  cbv zeta. split; [exact Hscore|]. split; [|exact Hlen].
  rewrite Hscore. apply activity_points_range.
Qed.

Lemma activity_score_is_bucket_sum_witness :
  exists r : analysis,
    analyze_activity_consistency Iso8601.iso8601 Examples.steady_clock
      Examples.twenty_five_events 0%nat = inr (r, 1%nat) /\
    score r = 40 + 20 + 20.
Proof.
  destruct (activity_score_is_bucket_sum Iso8601.iso8601 Examples.steady_clock
              (Examples.event "PushEvent" "2024-05-29T10:00:00Z")
              (tl Examples.twenty_five_events)
              (Examples.at_time "2024-05-29T10:00:00Z") 0%nat)
    as (r & Hrun & Hscore & _).
  - vm_compute. reflexivity.
  - exists r. split; [exact Hrun|]. rewrite Hscore. vm_compute. reflexivity.
Defined.

(** X2: the freshness bucket in microseconds.  The day count is a floor, so
    "at most 7 days" means less than 8 full days: the bucket is 20 while the
    first record is less than 8 days older than the clock reading (also
    when it lies in the future), 15 from 8 days up to less than 31 days, and
    10 from 31 days on. *)
Theorem activity_freshness_thresholds :
  forall (strptime_fmt : string -> option datetime) (clock : nat -> datetime)
         (newest : dict) (rest : list dict) (latest : datetime) (t : nat),
    timestamp_of strptime_fmt "created_at" newest = Some latest ->
    exists r : analysis,
      analyze_activity_consistency strptime_fmt clock (newest :: rest) t = inr (r, S t) /\
      let base := volume_points (len (newest :: rest))
                  + diversity_points (distinct_event_types (newest :: rest)) in
      let elapsed := clock t - latest in
      (elapsed < timedelta_days 8 -> score r = base + 20) /\
      (timedelta_days 8 <= elapsed < timedelta_days 31 -> score r = base + 15) /\
      (timedelta_days 31 <= elapsed -> score r = base + 10).
Proof.
  intros strptime_fmt clock newest rest latest t Hts.
  pose proof (analyze_activity_consistency_outcome strptime_fmt clock (newest :: rest) t
                ltac:(discriminate)) as H.
  rewrite (newest_age_ok _ _ _ _ _ _ Hts) in H.
  destruct (analyze_activity_consistency strptime_fmt clock (newest :: rest) t) as [e|[r t']];
    [contradiction|].
  destruct H as (-> & Hscore & _). exists r. split; [reflexivity|].
  cbv zeta. rewrite Hscore. unfold activity_points, freshness_points.
  rewrite !days_le. change (7 + 1) with 8. change (30 + 1) with 31.
  destruct (Z.ltb_spec (clock t - latest) (timedelta_days 8)),
           (Z.ltb_spec (clock t - latest) (timedelta_days 31));
    unfold timedelta_days, us_per_day in *; repeat split; intros; lia.
Qed.

Lemma activity_freshness_thresholds_witness :
  exists r : analysis,
    analyze_activity_consistency Iso8601.iso8601 Examples.steady_clock
      Examples.twenty_five_events 0%nat = inr (r, 1%nat) /\
    score r = 40 + 20 + 20.
Proof.
  destruct (activity_freshness_thresholds Iso8601.iso8601 Examples.steady_clock
              (Examples.event "PushEvent" "2024-05-29T10:00:00Z")
              (tl Examples.twenty_five_events)
              (Examples.at_time "2024-05-29T10:00:00Z") 0%nat)
    as (r & Hrun & Hfresh & _).
  - vm_compute. reflexivity.
  - exists r. split; [exact Hrun|]. rewrite Hfresh; vm_compute; reflexivity.
Defined.

(** X3: the activity analysis reads the timestamp of the first record
    only.  Two event lists with the same first record whose other records
    agree on everything but [created_at] give the same result, whatever
    those other timestamps are: missing, not a string or unparseable. *)
Theorem activity_reads_first_timestamp_only :
  forall (strptime_fmt : string -> option datetime) (clock : nat -> datetime)
         (newest : dict) (rest1 rest2 : list dict) (t : nat),
    differ_only_in "created_at" rest1 rest2 ->
    analyze_activity_consistency strptime_fmt clock (newest :: rest1) t
    = analyze_activity_consistency strptime_fmt clock (newest :: rest2) t.
Proof.
  intros strptime_fmt clock newest rest1 rest2 t Hrel.
  unfold analyze_activity_consistency. cbn [list_truthy negb first_item]. cbv zeta.
  assert (Hlen : len (newest :: rest1) = len (newest :: rest2)).
  { rewrite !len_cons, (differ_length _ _ _ Hrel). reflexivity. }
  assert (Htypes : map (fun event : dict => set_key (get_default event "type" (VStr "")))
                       (newest :: rest1)
                 = map (fun event : dict => set_key (get_default event "type" (VStr "")))
                       (newest :: rest2)).
  { cbn [map]. f_equal. apply (differ_map "created_at"); [|exact Hrel].
    intros x y Hxy. f_equal. apply (differ_get_default "created_at"); [exact Hxy|discriminate]. }
  rewrite Hlen, Htypes. reflexivity.
Qed.

Lemma activity_reads_first_timestamp_only_witness :
  analyze_activity_consistency Iso8601.iso8601 Examples.steady_clock
    Examples.twenty_five_events 0%nat
  = analyze_activity_consistency Iso8601.iso8601 Examples.steady_clock
      Samples.events_with_bad_tail 0%nat.
Proof.
  apply (activity_reads_first_timestamp_only Iso8601.iso8601 Examples.steady_clock
           (Examples.event "PushEvent" "2024-05-29T10:00:00Z")
           (tl Examples.twenty_five_events)
           (map (fun e => <["created_at" := VInt 0]> e) (tl Examples.twenty_five_events)) 0%nat).
  unfold differ_only_in. cbn [tl Examples.twenty_five_events repeat map].
  repeat constructor; vm_compute; reflexivity.
Defined.

(** The parse and the reading of [newest_age], case by case. *)
Lemma newest_age_run (strptime_fmt : string -> option datetime) (clock : nat -> datetime)
    (newest : dict) (rest : list dict) (t : nat) :
  newest_age strptime_fmt clock (newest :: rest) t =
  match timestamp_error strptime_fmt "created_at" newest with
  | Some e => inl e
  | None =>
      inr (days (clock t - default 0 (timestamp_of strptime_fmt "created_at" newest)), S t)
  end.
Proof.
  unfold newest_age, timestamp_error, timestamp_of. cbn [first_item].
  rewrite run_bind, run_ret, run_bind. unfold getitem.
  destruct (newest !! "created_at") as [[| | |s]|]; try reflexivity.
  rewrite run_ret, run_bind. cbn [strptime].
  destruct (strptime_fmt s) as [latest|]; reflexivity.
Qed.

(** X4: how the activity analysis fails.  On a non-empty event list it
    raises [KeyError] when the first record has no [created_at],
    [TypeError] when that value is not a string and [ValueError] when the
    string does not parse; in every other case it returns.  No partial
    result is produced and the clock is read only after a successful
    parse. *)
Theorem activity_failures :
  forall (strptime_fmt : string -> option datetime) (clock : nat -> datetime)
         (newest : dict) (rest : list dict) (t : nat),
    match timestamp_error strptime_fmt "created_at" newest with
    | Some e =>
        analyze_activity_consistency strptime_fmt clock (newest :: rest) t = inl e
    | None =>
        exists r, analyze_activity_consistency strptime_fmt clock (newest :: rest) t
                  = inr (r, S t)
    end.
Proof.
  intros strptime_fmt clock newest rest t.
  pose proof (analyze_activity_consistency_outcome strptime_fmt clock (newest :: rest) t
                ltac:(discriminate)) as H.
  rewrite (newest_age_run strptime_fmt clock) in H.
  destruct (timestamp_error strptime_fmt "created_at" newest) as [e|];
    destruct (analyze_activity_consistency strptime_fmt clock (newest :: rest) t)
      as [e'|[r t']]; try contradiction.
  - congruence.
  - destruct H as (-> & _). exists r. reflexivity.
Qed.

(** ** Further properties: failures *)

Section Failures.

Variable strptime_fmt : string -> option datetime.
Variable clock : nat -> datetime.

Lemma timestamp_error_none (k : string) (d : dict) :
  timestamp_error strptime_fmt k d = None <-> has_timestamp strptime_fmt k d = true.
Proof.
  unfold timestamp_error, has_timestamp, timestamp_of.
  destruct (d !! k) as [[| | |s]|]; try (split; discriminate).
  destruct (strptime_fmt s); split; (reflexivity || discriminate).
Qed.

Lemma first_timestamp_error_none (k : string) (ds : list dict) :
  first_timestamp_error strptime_fmt k ds = None <->
  forallb (has_timestamp strptime_fmt k) ds = true.
Proof.
  induction ds as [|d rest IH]; [split; reflexivity|].
  cbn [first_timestamp_error forallb].
  destruct (timestamp_error strptime_fmt k d) as [e|] eqn:He.
  - split; [discriminate|]. intros H. apply andb_prop in H as [H _].
    apply timestamp_error_none in H. congruence.
  - apply timestamp_error_none in He. rewrite He. exact IH.
Qed.

(** The check of one record, case by case. *)
Lemma recent_check_run (repo : dict) (t : nat) :
  (updated_at ← getitem repo "updated_at";
   updated ← strptime strptime_fmt updated_at;
   current ← now clock;
   mret (updated >? current - timedelta_days 90)) t
  = match timestamp_error strptime_fmt "updated_at" repo with
    | Some e => inl e
    | None => inr (updated_since strptime_fmt (clock t) repo, S t)
    end.
Proof.
  unfold timestamp_error, updated_since, timestamp_of.
  rewrite run_bind. unfold getitem.
  destruct (repo !! "updated_at") as [[| | |s]|]; try reflexivity.
  rewrite run_ret, run_bind. cbn [strptime].
  destruct (strptime_fmt s) as [ts|]; reflexivity.
Qed.

(** The loop stops at the first record whose timestamp cannot be read. *)
Lemma recent_loop_raises (repos_data : list dict) (e : exn) (acc : Z) (t : nat) :
  first_timestamp_error strptime_fmt "updated_at" repos_data = Some e ->
  count_from acc
    (fun repo =>
       updated_at ← getitem repo "updated_at";
       updated ← strptime strptime_fmt updated_at;
       current ← now clock;
       mret (updated >? current - timedelta_days 90))
    repos_data t
  = inl e.
Proof.
  revert acc t. induction repos_data as [|repo rest IH]; intros acc t; [discriminate|].
  cbn [first_timestamp_error count_from]. rewrite run_bind, recent_check_run.
  destruct (timestamp_error strptime_fmt "updated_at" repo) as [e'|].
  - intros [= ->]. reflexivity.
  - apply IH.
Qed.

Lemma sum_from_cases (vs : list value) (acc : Z) (t : nat) :
  sum_from acc vs t =
  if forallb int_like vs then inr (acc + sum_ints vs, t) else inl TypeError.
Proof.
  destruct (forallb int_like vs) eqn:H; [apply sum_from_ok | apply sum_from_raises]; exact H.
Qed.

(** [measure], case by case. *)
Lemma measure_run (repos_data : list dict) (t : nat) :
  measure strptime_fmt clock repos_data t =
  if forallb int_like (star_values repos_data) && forallb int_like (fork_values repos_data)
  then match first_timestamp_error strptime_fmt "updated_at" repos_data with
       | Some e => inl e
       | None => inr ((total_stars repos_data,
                       recent_count strptime_fmt clock t repos_data),
                      (t + length repos_data)%nat)
       end
  else inl TypeError.
Proof.
  unfold measure, py_sum, count_if. rewrite run_bind, sum_from_cases.
  destruct (forallb int_like (star_values repos_data)); [|reflexivity].
  rewrite run_bind, sum_from_cases.
  destruct (forallb int_like (fork_values repos_data)); [|reflexivity].
  cbn [andb]. rewrite run_bind.
  destruct (first_timestamp_error strptime_fmt "updated_at" repos_data) as [e|] eqn:He.
  - rewrite (recent_loop_raises _ _ _ _ He). reflexivity.
  - apply first_timestamp_error_none in He.
    rewrite (recent_loop strptime_fmt clock _ _ _ He), run_ret, !Z.add_0_l. reflexivity.
Qed.

Lemma repos_ok_cases (repos_data : list dict) :
  repos_ok strptime_fmt repos_data =
  forallb int_like (star_values repos_data) && forallb int_like (fork_values repos_data) &&
  forallb (has_timestamp strptime_fmt "updated_at") repos_data.
Proof.
  unfold repos_ok, star_values, fork_values.
  induction repos_data as [|repo rest IH]; [reflexivity|].
  cbn [forallb map]. rewrite IH. unfold repo_ok.
  repeat match goal with |- context [int_like ?v] =>
    let b := fresh "b" in generalize (int_like v); intros b end.
  repeat match goal with |- context [has_timestamp ?f ?k ?d] =>
    let b := fresh "b" in generalize (has_timestamp f k d); intros b end.
  repeat match goal with |- context [forallb ?f ?l] =>
    let b := fresh "b" in generalize (forallb f l); intros b end.
  repeat match goal with b : bool |- _ => destruct b end; reflexivity.
Qed.

Lemma repository_returns_iff (repos_data : list dict) (t : nat) :
  (exists r t', analyze_repository_quality strptime_fmt clock repos_data t = inr (r, t')) <->
  repos_ok strptime_fmt repos_data = true.
Proof.
  split.
  - intros (r & t' & Hrun). destruct repos_data as [|repo rest]; [reflexivity|].
    pose proof (analyze_repository_quality_outcome strptime_fmt clock (repo :: rest) t
                  ltac:(discriminate)) as H.
    rewrite Hrun, measure_run in H. rewrite repos_ok_cases.
    destruct (forallb int_like (star_values (repo :: rest))
              && forallb int_like (fork_values (repo :: rest))); [|contradiction].
    destruct (first_timestamp_error strptime_fmt "updated_at" (repo :: rest)) as [e|] eqn:He;
      [contradiction|].
    apply first_timestamp_error_none in He. rewrite He. reflexivity.
  - intros Hok. destruct (repository_returns strptime_fmt clock repos_data t Hok) as [r Hr].
    eauto.
Qed.

Lemma activity_returns_iff (events_data : list dict) (t : nat) :
  (exists r t', analyze_activity_consistency strptime_fmt clock events_data t = inr (r, t')) <->
  events_ok strptime_fmt events_data = true.
Proof.
  split.
  - intros (r & t' & Hrun). destruct events_data as [|newest rest]; [reflexivity|].
    pose proof (analyze_activity_consistency_outcome strptime_fmt clock (newest :: rest) t
                  ltac:(discriminate)) as H.
    rewrite Hrun, newest_age_run in H. cbn [events_ok].
    destruct (timestamp_error strptime_fmt "created_at" newest) as [e|] eqn:He;
      [contradiction|].
    apply timestamp_error_none, He.
  - intros Hok. destruct (activity_returns strptime_fmt clock events_data t Hok) as [r Hr].
    eauto.
Qed.

End Failures.

Lemma profile_returns_iff (user_data : dict) (t : nat) :
  (exists r t', analyze_profile_completeness user_data t = inr (r, t')) <->
  user_ok user_data = true.
Proof.
  pose proof (analyze_profile_completeness_outcome user_data t) as H. split.
  - intros (r & t' & Hrun). rewrite Hrun in H. tauto.
  - intros Hok. destruct (profile_returns user_data t Hok) as [r Hr]. eauto.
Qed.


(** X5: a star count or a fork count that is not a number ([None], a
    string) makes the repository analysis raise [TypeError], whatever the
    other fields hold: the fork counts are summed although the total is
    never used. *)
Theorem non_numeric_counts_raise :
  forall (strptime_fmt : string -> option datetime) (clock : nat -> datetime)
         (repos_data : list dict) (t : nat),
    repos_data <> [] ->
    forallb int_like (star_values repos_data) && forallb int_like (fork_values repos_data)
      = false ->
    analyze_repository_quality strptime_fmt clock repos_data t = inl TypeError.
Proof.
  intros strptime_fmt clock repos_data t Hne Hbad.
  pose proof (analyze_repository_quality_outcome strptime_fmt clock repos_data t Hne) as H.
  rewrite measure_run, Hbad in H.
  destruct (analyze_repository_quality strptime_fmt clock repos_data t) as [e|[r t']];
    [congruence | contradiction].
Qed.

Lemma non_numeric_counts_raise_witness :
  analyze_repository_quality Iso8601.iso8601 Examples.steady_clock
    Samples.repos_with_null_forks 0%nat = inl TypeError.
Proof.
  apply (non_numeric_counts_raise Iso8601.iso8601 Examples.steady_clock
           Samples.repos_with_null_forks 0%nat).
  - discriminate.
  - vm_compute. reflexivity.
Defined.

(** X6: with numeric counts, one record whose [updated_at] is missing, not
    a string or unparseable aborts the whole repository analysis: the call
    raises the exception of the first such record ([KeyError], [TypeError]
    or [ValueError]) and returns no score. *)
Theorem bad_timestamp_aborts_repository_analysis :
  forall (strptime_fmt : string -> option datetime) (clock : nat -> datetime)
         (repos_data : list dict) (e : exn) (t : nat),
    forallb int_like (star_values repos_data) = true ->
    forallb int_like (fork_values repos_data) = true ->
    first_timestamp_error strptime_fmt "updated_at" repos_data = Some e ->
    analyze_repository_quality strptime_fmt clock repos_data t = inl e.
Proof.
  intros strptime_fmt clock repos_data e t Hstars Hforks He.
  assert (Hne : repos_data <> []) by (intros ->; discriminate He).
  pose proof (analyze_repository_quality_outcome strptime_fmt clock repos_data t Hne) as H.
  rewrite measure_run, Hstars, Hforks, He in H. cbn [andb] in H.
  destruct (analyze_repository_quality strptime_fmt clock repos_data t) as [e'|[r t']];
    [congruence | contradiction].
Qed.

Lemma bad_timestamp_aborts_repository_analysis_witness :
  analyze_repository_quality Iso8601.iso8601 Examples.steady_clock
    Samples.repos_with_bad_timestamps 0%nat = inl (KeyError "updated_at").
Proof.
  apply (bad_timestamp_aborts_repository_analysis Iso8601.iso8601 Examples.steady_clock
           Samples.repos_with_bad_timestamps (KeyError "updated_at") 0%nat);
    vm_compute; reflexivity.
Defined.

(** X7: the profile analysis raises [TypeError] exactly when [followers]
    is present and not a number; in every other case it returns, with eight
    detail lines and without reading the clock.  No other exception is
    possible. *)
Theorem profile_fails_iff_followers_not_numeric :
  forall (user_data : dict) (t : nat),
    (user_ok user_data = false <->
     analyze_profile_completeness user_data t = inl TypeError) /\
    (user_ok user_data = true <->
     exists r, analyze_profile_completeness user_data t = inr (r, t) /\
               length (details r) = 8%nat) /\
    (forall e, analyze_profile_completeness user_data t = inl e -> e = TypeError).
Proof.
  intros user_data t.
  pose proof (analyze_profile_completeness_outcome user_data t) as H.
  destruct (analyze_profile_completeness user_data t) as [e|[r t']].
  - destruct H as [-> Hbad]. repeat split; try congruence.
    intros (r & Hr & _). discriminate Hr.
  - destruct H as (-> & Hok & _ & Hlen). repeat split; try congruence.
    intros _. exists r. split; [reflexivity | exact Hlen].
Qed.

(** X8: a run of [main] completes exactly on data of the shape of the API
    (numeric or absent follower, star and fork counts, a parseable
    [updated_at] on every repository and a parseable [created_at] on the
    first event); on any other data it raises.  A follower count that is
    not a number makes the run fail with [TypeError] whatever the
    repositories and events are. *)
Theorem main_completes_iff_well_shaped :
  forall (strptime_fmt : string -> option datetime) (clock : nat -> datetime)
         (data : github_data) (t : nat),
    ((exists rep t', main strptime_fmt clock data t = inr (rep, t')) <->
     data_ok strptime_fmt data = true) /\
    (data_ok strptime_fmt data = false ->
     exists e, main strptime_fmt clock data t = inl e) /\
    (user_ok (user data) = false -> main strptime_fmt clock data t = inl TypeError).
Proof.
  intros strptime_fmt clock data t.
  assert (Hiff : (exists rep t', main strptime_fmt clock data t = inr (rep, t')) <->
                 data_ok strptime_fmt data = true).
  { split.
    - intros (rep & t' & Hrun). rewrite main_outcome in Hrun. unfold data_ok.
      destruct (analyze_profile_completeness (user data) t) as [e|[p t1]] eqn:Hp;
        [discriminate|].
      destruct (analyze_repository_quality strptime_fmt clock (repos data) t1)
        as [e|[r t2]] eqn:Hr; [discriminate|].
      destruct (analyze_activity_consistency strptime_fmt clock (events data) t2)
        as [e|[a t3]] eqn:Ha; [discriminate|].
      rewrite (proj1 (profile_returns_iff _ t) ltac:(eauto)).
      rewrite (proj1 (repository_returns_iff strptime_fmt clock _ t1) ltac:(eauto)).
      rewrite (proj1 (activity_returns_iff strptime_fmt clock _ t2) ltac:(eauto)).
      reflexivity.
    - intros Hok. destruct (main_returns strptime_fmt clock data t Hok) as [rep Hrep]. eauto. }
  split; [exact Hiff|]. split.
  - intros Hbad. destruct (main strptime_fmt clock data t) as [e|[rep t']] eqn:Hrun.
    + exists e. reflexivity.
    + rewrite (proj1 Hiff) in Hbad by eauto. discriminate.
  - intros Hbad. rewrite main_outcome.
    pose proof (analyze_profile_completeness_outcome (user data) t) as H.
    destruct (analyze_profile_completeness (user data) t) as [e|[p t1]].
    + destruct H as [-> _]. reflexivity.
    + destruct H as (_ & Hok & _). congruence.
Qed.

(** ** Further properties: invariants of the scores *)

Lemma profile_points_mod5 (user_data : dict) : profile_points user_data mod 5 = 0.
Proof.
  unfold profile_points, followers_points, field_points.
  repeat match goal with |- context [if ?c then _ else _] => destruct c end; reflexivity.
Qed.

Lemma repository_points_mod5 (total documented distinct stars recent : Z) :
  repository_points total documented distinct stars recent mod 5 = 0.
Proof.
  unfold repository_points, count_points, documentation_points, language_points,
    star_points, recency_points.
  repeat match goal with |- context [if ?c then _ else _] => destruct c end; reflexivity.
Qed.

Lemma activity_points_mod5 (event_count distinct age_days : Z) :
  activity_points event_count distinct age_days mod 5 = 0.
Proof.
  unfold activity_points, volume_points, diversity_points, freshness_points.
  repeat match goal with |- context [if ?c then _ else _] => destruct c end; reflexivity.
Qed.

Section Invariants.

Variable strptime_fmt : string -> option datetime.
Variable clock : nat -> datetime.

(** What each analyzer returns, by emptiness of its input. *)
Lemma repository_result_shape (repos_data : list dict) (t t' : nat) (r : analysis) :
  analyze_repository_quality strptime_fmt clock repos_data t = inr (r, t') ->
  score r mod 5 = 0 /\
  (repos_data = [] -> score r = 0 /\ length (details r) = 1%nat) /\
  (repos_data <> [] -> 40 <= score r <= 95 /\ length (details r) = 5%nat).
Proof.
  destruct repos_data as [|repo rest].
  - cbn. intros [= <- _]. cbn. repeat split; congruence.
  - intros Hrun.
    pose proof (analyze_repository_quality_outcome strptime_fmt clock (repo :: rest) t
                  ltac:(discriminate)) as H.
    rewrite Hrun in H.
    destruct (measure strptime_fmt clock (repo :: rest) t) as [e|[[stars recent] t'']];
      [contradiction|].
    destruct H as (_ & Hscore & Hlen). rewrite Hscore.
    split; [apply repository_points_mod5|]. split; [discriminate|].
    intros _. split; [apply repository_points_range | exact Hlen].
Qed.

Lemma activity_result_shape (events_data : list dict) (t t' : nat) (r : analysis) :
  analyze_activity_consistency strptime_fmt clock events_data t = inr (r, t') ->
  score r mod 5 = 0 /\
  (events_data = [] -> score r = 0 /\ length (details r) = 1%nat) /\
  (events_data <> [] -> 50 <= score r <= 100 /\ length (details r) = 3%nat).
Proof.
  destruct events_data as [|newest rest].
  - cbn. intros [= <- _]. cbn. repeat split; congruence.
  - intros Hrun.
    pose proof (analyze_activity_consistency_outcome strptime_fmt clock (newest :: rest) t
                  ltac:(discriminate)) as H.
    rewrite Hrun in H.
    destruct (newest_age strptime_fmt clock (newest :: rest) t) as [e|[age t'']];
      [contradiction|].
    destruct H as (_ & Hscore & Hlen). rewrite Hscore.
    split; [apply activity_points_mod5|]. split; [discriminate|].
    intros _. split; [apply activity_points_range | exact Hlen].
Qed.

End Invariants.

(** X9: every score a completed run reports is a multiple of 5: the three
    category scores and the total.  Totals such as 239 or 179 therefore
    never occur. *)
Theorem scores_are_multiples_of_five :
  forall (strptime_fmt : string -> option datetime) (clock : nat -> datetime)
         (data : github_data) (t : nat) (rep : report) (t' : nat),
    main strptime_fmt clock data t = inr (rep, t') ->
    score (profile_analysis rep) mod 5 = 0 /\
    score (repo_analysis rep) mod 5 = 0 /\
    score (activity_analysis rep) mod 5 = 0 /\
    total_score rep mod 5 = 0 /\
    total_score rep <> 239 /\ total_score rep <> 179.
Proof.
  intros strptime_fmt clock data t rep t' Hrun.
  destruct (main_parts _ _ _ _ _ _ Hrun) as (t1 & t2 & Hp & Hr & Ha & Htotal).
  assert (H1 : score (profile_analysis rep) mod 5 = 0).
  { pose proof (analyze_profile_completeness_outcome (user data) t) as H.
    rewrite Hp in H. destruct H as (_ & _ & -> & _). apply profile_points_mod5. }
  pose proof (repository_result_shape _ _ _ _ _ _ Hr) as (H2 & _).
  pose proof (activity_result_shape _ _ _ _ _ _ Ha) as (H3 & _).
  assert (H4 : total_score rep mod 5 = 0).
  { rewrite Htotal.
    rewrite Z.add_mod, (Z.add_mod (score (profile_analysis rep))), H1, H2, H3 by lia.
    reflexivity. }
  repeat split; try assumption; intros Heq; rewrite Heq in H4; discriminate H4.
Qed.

Lemma scores_are_multiples_of_five_witness :
  total_score Examples.sample_report mod 5 = 0.
Proof.
  destruct (scores_are_multiples_of_five Iso8601.iso8601 Examples.steady_clock
              Examples.sample_data 0%nat Examples.sample_report 13%nat) as (_ & _ & _ & H & _).
  - vm_compute. reflexivity.
  - exact H.
Defined.

(** X10: the total of a completed run is at most 295, since the
    repository score ends at 95: a full 300 of 300 is never shown.  With at
    least one repository and one event the total is at least 90. *)
Theorem total_score_range :
  forall (strptime_fmt : string -> option datetime) (clock : nat -> datetime)
         (data : github_data) (t : nat) (rep : report) (t' : nat),
    main strptime_fmt clock data t = inr (rep, t') ->
    0 <= total_score rep <= 295 /\
    (repos data <> [] -> events data <> [] -> 90 <= total_score rep).
Proof.
  intros strptime_fmt clock data t rep t' Hrun.
  destruct (main_parts _ _ _ _ _ _ Hrun) as (t1 & t2 & Hp & Hr & Ha & Htotal).
  pose proof (profile_score_bounds _ _ _ _ Hp) as Hpb.
  pose proof (repository_result_shape _ _ _ _ _ _ Hr) as (_ & Hr0 & Hr1).
  pose proof (activity_result_shape _ _ _ _ _ _ Ha) as (_ & Ha0 & Ha1).
  pose proof (activity_score_bounds _ _ _ _ _ _ Ha) as Hab.
  rewrite Htotal. split.
  - destruct (repos data) as [|repo rest].
    + destruct (Hr0 eq_refl) as [-> _]. lia.
    + destruct (Hr1 ltac:(discriminate)) as [Hrb _]. lia.
  - intros Hrne Hene. destruct (Hr1 Hrne) as [Hrb _]. destruct (Ha1 Hene) as [Hab' _]. lia.
Qed.

Lemma total_score_range_witness :
  0 <= total_score Examples.sample_report <= 295 /\ 90 <= total_score Examples.sample_report.
Proof.
  destruct (total_score_range Iso8601.iso8601 Examples.steady_clock
              Examples.sample_data 0%nat Examples.sample_report 13%nat) as (Hrange & Hlow).
  - vm_compute. reflexivity.
  - split; [exact Hrange|]. apply Hlow; discriminate.
Defined.

(** X11: a completed run carries a fixed number of detail lines: eight for
    the profile, five for a non-empty repository collection and three for a
    non-empty event list, one each for an empty collection. *)
Theorem detail_line_counts :
  forall (strptime_fmt : string -> option datetime) (clock : nat -> datetime)
         (data : github_data) (t : nat) (rep : report) (t' : nat),
    main strptime_fmt clock data t = inr (rep, t') ->
    length (details (profile_analysis rep)) = 8%nat /\
    length (details (repo_analysis rep)) = (if list_truthy (repos data) then 5 else 1)%nat /\
    length (details (activity_analysis rep)) = (if list_truthy (events data) then 3 else 1)%nat.
Proof.
  intros strptime_fmt clock data t rep t' Hrun.
  destruct (main_parts _ _ _ _ _ _ Hrun) as (t1 & t2 & Hp & Hr & Ha & _).
  pose proof (analyze_profile_completeness_outcome (user data) t) as H.
  rewrite Hp in H. destruct H as (_ & _ & _ & Hlen).
  pose proof (repository_result_shape _ _ _ _ _ _ Hr) as (_ & Hr0 & Hr1).
  pose proof (activity_result_shape _ _ _ _ _ _ Ha) as (_ & Ha0 & Ha1).
  split; [exact Hlen|]. split.
  - destruct (repos data); cbn [list_truthy];
      [apply Hr0; reflexivity | apply Hr1; discriminate].
  - destruct (events data); cbn [list_truthy];
      [apply Ha0; reflexivity | apply Ha1; discriminate].
Qed.

Lemma detail_line_counts_witness :
  length (details (profile_analysis Examples.sample_report)) = 8%nat /\
  length (details (repo_analysis Examples.sample_report)) = 5%nat /\
  length (details (activity_analysis Examples.sample_report)) = 3%nat.
Proof.
  apply (detail_line_counts Iso8601.iso8601 Examples.steady_clock
           Examples.sample_data 0%nat Examples.sample_report 13%nat).
  vm_compute. reflexivity.
Defined.

(** ** Further properties: the measurements decide the result *)

Section Determined.

Variable strptime_fmt : string -> option datetime.

(** On records of the shape of the API the whole result, score and text, is
    a function of the five measurements. *)
Lemma repository_analysis_determined (clock1 clock2 : nat -> datetime)
    (repos1 repos2 : list dict) (t : nat) :
  repos_ok strptime_fmt repos1 = true ->
  repos_ok strptime_fmt repos2 = true ->
  length repos1 = length repos2 ->
  documented repos1 = documented repos2 ->
  (list_to_set (language_keys repos1) : gset value) = list_to_set (language_keys repos2) ->
  total_stars repos1 = total_stars repos2 ->
  recent_count strptime_fmt clock1 t repos1 = recent_count strptime_fmt clock2 t repos2 ->
  analyze_repository_quality strptime_fmt clock1 repos1 t
  = analyze_repository_quality strptime_fmt clock2 repos2 t.
Proof.
  intros Hok1 Hok2 Hlen Hdoc Hlang Hstars Hrecent.
  unfold analyze_repository_quality.
  assert (Htruthy : list_truthy repos1 = list_truthy repos2).
  { destruct repos1, repos2; try reflexivity; discriminate Hlen. }
  assert (Hlen' : len repos1 = len repos2) by (unfold len; rewrite Hlen; reflexivity).
  rewrite Htruthy, Hlen'.
  destruct (list_truthy repos2); cbn [negb]; [|reflexivity].
  cbv zeta. unfold count_if, py_sum.
  rewrite !tier3, !run_bind, !count_from_pure. cbv beta iota.
  change (len (List.filter (fun x : dict => truthy (get x "description")) repos1))
    with (documented repos1).
  change (len (List.filter (fun x : dict => truthy (get x "description")) repos2))
    with (documented repos2).
  rewrite Hdoc.
  rewrite !tier3, !run_bind, !languages_loop. cbv beta iota. rewrite Hlang.
  rewrite !tier3, !run_bind.
  change (map (fun repo : dict => get_default repo "stargazers_count" (VInt 0)) repos1)
    with (star_values repos1).
  change (map (fun repo : dict => get_default repo "stargazers_count" (VInt 0)) repos2)
    with (star_values repos2).
  rewrite !sum_from_ok by (apply (repos_ok_stars strptime_fmt); assumption).
  rewrite !run_bind.
  change (map (fun repo : dict => get_default repo "forks_count" (VInt 0)) repos1)
    with (fork_values repos1).
  change (map (fun repo : dict => get_default repo "forks_count" (VInt 0)) repos2)
    with (fork_values repos2).
  rewrite !sum_from_ok by (apply (repos_ok_forks strptime_fmt); assumption).
  rewrite !tier3, !run_bind.
  rewrite !recent_loop by (apply repos_ok_timestamps; assumption).
  fold (total_stars repos1) (total_stars repos2).
  rewrite Hstars, Hrecent, Hlen. reflexivity.
Qed.

(** With a clock that stands still the recent count is a plain count. *)
Lemma recent_count_steady (clock : nat -> datetime) (current : datetime)
    (repos_data : list dict) (t : nat) :
  (forall i, (i < length repos_data)%nat -> clock (t + i)%nat = current) ->
  recent_count strptime_fmt clock t repos_data
  = len (List.filter (updated_since strptime_fmt current) repos_data).
Proof.
  revert t. induction repos_data as [|repo rest IH]; intros t Hsteady; [reflexivity|].
  cbn [recent_count List.filter].
  assert (Hnow : clock t = current).
  { rewrite <- (Nat.add_0_r t). apply Hsteady. cbn [length]. lia. }
  rewrite Hnow, IH.
  - destruct (updated_since strptime_fmt current repo); [rewrite len_cons|]; lia.
  - intros i Hi. replace (S t + i)%nat with (t + S i)%nat by lia.
    apply Hsteady. cbn [length]. lia.
Qed.

End Determined.

Lemma filter_length_perm {A : Type} (p : A -> bool) (l l' : list A) :
  Permutation l l' -> length (List.filter p l) = length (List.filter p l').
Proof.
  induction 1 as [|x l l' _ IH|x y l|l l' l'' _ IH1 _ IH2]; cbn [List.filter].
  - reflexivity.
  - destruct (p x); cbn [length]; rewrite IH; reflexivity.
  - destruct (p x), (p y); reflexivity.
  - rewrite IH1. exact IH2.
Qed.

Lemma forallb_perm {A : Type} (p : A -> bool) (l l' : list A) :
  Permutation l l' -> forallb p l = forallb p l'.
Proof.
  induction 1 as [|x l l' _ IH|x y l|l l' l'' _ IH1 _ IH2]; cbn [forallb].
  - reflexivity.
  - rewrite IH. reflexivity.
  - destruct (p x), (p y); reflexivity.
  - rewrite IH1. exact IH2.
Qed.

Lemma language_set_perm (l l' : list dict) :
  Permutation l l' ->
  (list_to_set (language_keys l) : gset value) = list_to_set (language_keys l').
Proof.
  unfold language_keys.
  induction 1 as [|x l l' _ IH|x y l|l l' l'' _ IH1 _ IH2]; cbn [map List.filter].
  - reflexivity.
  - destruct (truthy (get x "language")); cbn [map]; [|exact IH].
    rewrite !list_to_set_cons, IH. reflexivity.
  - destruct (truthy (get x "language")), (truthy (get y "language")); cbn [map];
      try reflexivity.
    rewrite !list_to_set_cons. apply set_eq. intros v. rewrite !elem_of_union. tauto.
  - rewrite IH1. exact IH2.
Qed.

Lemma total_stars_perm (l l' : list dict) :
  Permutation l l' -> total_stars l = total_stars l'.
Proof.
  unfold total_stars, star_values, sum_ints.
  induction 1 as [|x l l' _ IH|x y l|l l' l'' _ IH1 _ IH2]; cbn [map fold_right]; lia.
Qed.

(** X12: on records of the shape of the API, the score of the repository
    analysis is monotone in its measurements.  Of two non-empty
    collections of the same size, the one with at least as many documented
    records, distinct languages, stars and recently updated records scores
    at least as much. *)
Theorem repository_score_monotone_in_measurements :
  forall (strptime_fmt : string -> option datetime) (clock1 clock2 : nat -> datetime)
         (repos1 repos2 : list dict) (t1 t2 : nat),
    repos1 <> [] ->
    repos_ok strptime_fmt repos1 = true ->
    repos_ok strptime_fmt repos2 = true ->
    length repos1 = length repos2 ->
    documented repos1 <= documented repos2 ->
    distinct_languages repos1 <= distinct_languages repos2 ->
    total_stars repos1 <= total_stars repos2 ->
    recent_count strptime_fmt clock1 t1 repos1 <= recent_count strptime_fmt clock2 t2 repos2 ->
    exists r1 r2 : analysis,
      analyze_repository_quality strptime_fmt clock1 repos1 t1
        = inr (r1, (t1 + length repos1)%nat) /\
      analyze_repository_quality strptime_fmt clock2 repos2 t2
        = inr (r2, (t2 + length repos2)%nat) /\
      score r1 <= score r2.
Proof.
  intros strptime_fmt clock1 clock2 repos1 repos2 t1 t2 Hne Hok1 Hok2 Hlen Hd Hl Hs Hr.
  assert (Hne2 : repos2 <> []) by (destruct repos1, repos2; congruence || discriminate).
  pose proof (analyze_repository_quality_outcome strptime_fmt clock1 repos1 t1 Hne) as H1.
  pose proof (analyze_repository_quality_outcome strptime_fmt clock2 repos2 t2 Hne2) as H2.
  rewrite (measure_ok _ _ _ _ Hok1) in H1. rewrite (measure_ok _ _ _ _ Hok2) in H2.
  destruct (analyze_repository_quality strptime_fmt clock1 repos1 t1) as [e|[r1 t1']];
    [contradiction|].
  destruct (analyze_repository_quality strptime_fmt clock2 repos2 t2) as [e|[r2 t2']];
    [contradiction|].
  destruct H1 as (-> & Hs1 & _), H2 as (-> & Hs2 & _).
  exists r1, r2. split; [reflexivity|]. split; [reflexivity|].
  rewrite Hs1, Hs2. unfold len. rewrite Hlen.
  unfold repository_points, documentation_points, language_points, star_points,
    recency_points.
  repeat match goal with |- context [if ?a <=? ?b then _ else _] =>
    destruct (Z.leb_spec a b) end; lia.
Qed.

Lemma repository_score_monotone_in_measurements_witness :
  exists r1 r2 : analysis,
    analyze_repository_quality Iso8601.iso8601 Examples.steady_clock
      Examples.twelve_repos 0%nat = inr (r1, 12%nat) /\
    analyze_repository_quality Iso8601.iso8601 Examples.steady_clock
      Samples.twelve_repos_improved 0%nat = inr (r2, 12%nat) /\
    score r1 <= score r2.
Proof.
  apply (repository_score_monotone_in_measurements Iso8601.iso8601
           Examples.steady_clock Examples.steady_clock
           Examples.twelve_repos Samples.twelve_repos_improved 0%nat 0%nat);
    try discriminate; vm_compute; (reflexivity || discriminate).
Defined.

(** X13: when the clock shows the same time at every reading of the call,
    the order of the repository records does not matter: a permutation of
    a collection of records of the shape of the API gives the same result,
    score and detail lines. *)
Theorem repository_order_irrelevant_on_steady_clock :
  forall (strptime_fmt : string -> option datetime) (clock : nat -> datetime)
         (current : datetime) (repos1 repos2 : list dict) (t : nat),
    Permutation repos1 repos2 ->
    repos_ok strptime_fmt repos1 = true ->
    (forall i, (i < length repos1)%nat -> clock (t + i)%nat = current) ->
    analyze_repository_quality strptime_fmt clock repos1 t
    = analyze_repository_quality strptime_fmt clock repos2 t.
Proof.
  intros strptime_fmt clock current repos1 repos2 t Hperm Hok Hsteady.
  pose proof (Permutation_length Hperm) as Hlen.
  apply repository_analysis_determined.
  - exact Hok.
  - unfold repos_ok in *. rewrite <- (forallb_perm _ _ _ Hperm). exact Hok.
  - exact Hlen.
  - unfold documented, len. rewrite (filter_length_perm _ _ _ Hperm). reflexivity.
  - apply language_set_perm, Hperm.
  - apply total_stars_perm, Hperm.
  - rewrite (recent_count_steady strptime_fmt clock current repos1 t Hsteady).
    rewrite (recent_count_steady strptime_fmt clock current repos2 t)
      by (rewrite <- Hlen; exact Hsteady).
    unfold len. rewrite (filter_length_perm _ _ _ Hperm). reflexivity.
Qed.

Lemma repository_order_irrelevant_on_steady_clock_witness :
  analyze_repository_quality Iso8601.iso8601 Examples.steady_clock Examples.twelve_repos 0%nat
  = analyze_repository_quality Iso8601.iso8601 Examples.steady_clock
      Samples.twelve_repos_reversed 0%nat.
Proof.
  apply (repository_order_irrelevant_on_steady_clock Iso8601.iso8601 Examples.steady_clock
           Examples.noon_1_june_2024 Examples.twelve_repos Samples.twelve_repos_reversed 0%nat).
  - apply Permutation_rev.
  - vm_compute. reflexivity.
  - intros i _. reflexivity.
Defined.

(** ** Further properties: the fields that are read *)

Lemma agree_on_lookup (ks : list string) (x y : dict) (k : string) :
  agree_on ks x y -> In k ks -> x !! k = y !! k.
Proof. unfold agree_on. rewrite List.Forall_forall. intros H Hk. apply H, Hk. Qed.

(** X14: the profile analysis reads eight fields and nothing else: two
    profiles that agree on [name], [bio], [location], [company], [email],
    [blog], [twitter_username] and [followers] give the same result,
    whatever else they hold. *)
Theorem profile_reads_eight_fields :
  forall (x y : dict) (t : nat),
    agree_on profile_fields x y ->
    analyze_profile_completeness x t = analyze_profile_completeness y t.
Proof.
  intros x y t H.
  unfold analyze_profile_completeness, get, get_default, getitem.
  rewrite (agree_on_lookup _ _ _ "name" H), (agree_on_lookup _ _ _ "bio" H),
    (agree_on_lookup _ _ _ "location" H), (agree_on_lookup _ _ _ "company" H),
    (agree_on_lookup _ _ _ "email" H), (agree_on_lookup _ _ _ "blog" H),
    (agree_on_lookup _ _ _ "twitter_username" H), (agree_on_lookup _ _ _ "followers" H)
    by (cbn; tauto).
  reflexivity.
Qed.

Lemma profile_reads_eight_fields_witness :
  analyze_profile_completeness Examples.named_profile 0%nat
  = analyze_profile_completeness Samples.named_profile_with_extras 0%nat.
Proof.
  apply (profile_reads_eight_fields Examples.named_profile
           Samples.named_profile_with_extras 0%nat).
  unfold agree_on, profile_fields. repeat constructor; vm_compute; reflexivity.
Defined.

(** X15: for the seven text fields of the profile a blank value is a
    missing value: setting such a field to [None], to the empty string, to
    [0] or to [False] gives the same result as removing it. *)
Theorem blank_profile_field_counts_as_missing :
  forall (user_data : dict) (k : string) (v : value) (t : nat),
    In k ["name"; "bio"; "location"; "company"; "email"; "blog"; "twitter_username"] ->
    truthy v = false ->
    analyze_profile_completeness (<[k := v]> user_data) t
    = analyze_profile_completeness (delete k user_data) t.
Proof.
  intros user_data k v t Hk Hv.
  unfold analyze_profile_completeness, get, get_default, getitem.
  cbn [In] in Hk.
  repeat (destruct Hk as [<-|Hk];
          [repeat first [ rewrite lookup_insert_eq | rewrite lookup_delete_eq
                        | rewrite lookup_insert_ne by discriminate
                        | rewrite lookup_delete_ne by discriminate ];
           cbn [default from_option id]; rewrite Hv; reflexivity |]).
  destruct Hk.
Qed.

Lemma blank_profile_field_counts_as_missing_witness :
  analyze_profile_completeness (<["blog" := VStr ""]> Examples.full_profile) 0%nat
  = analyze_profile_completeness (delete "blog" Examples.full_profile) 0%nat.
Proof.
  apply (blank_profile_field_counts_as_missing Examples.full_profile "blog" (VStr "") 0%nat).
  - cbn. tauto.
  - reflexivity.
Defined.

Lemma related_map {B : Type} (R : dict -> dict -> Prop) (f : dict -> B) (xs ys : list dict) :
  (forall x y, R x y -> f x = f y) -> Forall2 R xs ys -> map f xs = map f ys.
Proof.
  intros Hf H. induction H as [|x y xs ys Hxy _ IH]; [reflexivity|].
  cbn [map]. rewrite (Hf x y Hxy), IH. reflexivity.
Qed.

Lemma related_count_from (R : dict -> dict -> Prop) (c : dict -> M bool) (xs ys : list dict) :
  (forall x y t, R x y -> c x t = c y t) ->
  Forall2 R xs ys ->
  forall (acc : Z) (t : nat), count_from acc c xs t = count_from acc c ys t.
Proof.
  intros Hc H. induction H as [|x y xs ys Hxy _ IH]; intros acc t; [reflexivity|].
  cbn [count_from]. rewrite !run_bind, (Hc x y t Hxy).
  destruct (c y t) as [e|[b t']]; [reflexivity | apply IH].
Qed.

(** X16: the repository analysis reads five fields of each record and
    nothing else: two collections whose records agree, one by one, on
    [description], [language], [stargazers_count], [forks_count] and
    [updated_at] give the same result, a returned score or a raised
    exception. *)
Theorem repository_reads_five_fields :
  forall (strptime_fmt : string -> option datetime) (clock : nat -> datetime)
         (repos1 repos2 : list dict) (t : nat),
    Forall2 (agree_on repository_fields) repos1 repos2 ->
    analyze_repository_quality strptime_fmt clock repos1 t
    = analyze_repository_quality strptime_fmt clock repos2 t.
Proof.
  intros strptime_fmt clock repos1 repos2 t Hrel.
  assert (Hget : forall k, In k repository_fields ->
            map (fun repo : dict => repo !! k) repos1 = map (fun repo : dict => repo !! k) repos2).
  { intros k Hk. apply (related_map (agree_on repository_fields)); [|exact Hrel].
    intros x y Hxy. apply (agree_on_lookup _ _ _ _ Hxy Hk). }
  unfold analyze_repository_quality.
  assert (Htruthy : list_truthy repos1 = list_truthy repos2) by (destruct Hrel; reflexivity).
  assert (Hlen : len repos1 = len repos2).
  { unfold len. f_equal. exact (Forall2_length _ _ _ Hrel). }
  rewrite Htruthy, Hlen.
  destruct (list_truthy repos2); cbn [negb]; [|reflexivity].
  cbv zeta. unfold count_if, py_sum.
  rewrite !tier3, !run_bind, !count_from_pure. cbv beta iota.
  assert (Hdoc : documented repos1 = documented repos2).
  { unfold documented, len. f_equal.
    assert (Hp : forall x y, agree_on repository_fields x y ->
              truthy (get x "description") = truthy (get y "description")).
    { intros x y Hxy. unfold get.
      rewrite (agree_on_lookup _ _ _ "description" Hxy) by (cbn; tauto). reflexivity. }
    clear -Hrel Hp. induction Hrel as [|x y xs ys Hxy _ IH]; [reflexivity|].
    cbn [List.filter]. rewrite (Hp x y Hxy).
    destruct (truthy (get y "description")); cbn [length]; rewrite IH; reflexivity. }
  change (len (List.filter (fun x : dict => truthy (get x "description")) repos1))
    with (documented repos1).
  change (len (List.filter (fun x : dict => truthy (get x "description")) repos2))
    with (documented repos2).
  rewrite Hdoc.
  rewrite !tier3, !run_bind, !languages_loop. cbv beta iota.
  assert (Hlang : language_keys repos1 = language_keys repos2).
  { unfold language_keys. do 2 f_equal.
    apply (related_map (agree_on repository_fields)); [|exact Hrel].
    intros x y Hxy. unfold get.
    rewrite (agree_on_lookup _ _ _ "language" Hxy) by (cbn; tauto). reflexivity. }
  rewrite Hlang.
  rewrite !tier3, !run_bind.
  assert (Hstars : map (fun repo : dict => get_default repo "stargazers_count" (VInt 0)) repos1
                 = map (fun repo : dict => get_default repo "stargazers_count" (VInt 0)) repos2).
  { apply (related_map (agree_on repository_fields)); [|exact Hrel].
    intros x y Hxy. unfold get_default.
    rewrite (agree_on_lookup _ _ _ "stargazers_count" Hxy) by (cbn; tauto). reflexivity. }
  assert (Hforks : map (fun repo : dict => get_default repo "forks_count" (VInt 0)) repos1
                 = map (fun repo : dict => get_default repo "forks_count" (VInt 0)) repos2).
  { apply (related_map (agree_on repository_fields)); [|exact Hrel].
    intros x y Hxy. unfold get_default.
    rewrite (agree_on_lookup _ _ _ "forks_count" Hxy) by (cbn; tauto). reflexivity. }
  rewrite Hstars, Hforks.
  match goal with |- context [sum_from 0 ?vs t] =>
    destruct (sum_from 0 vs t) as [e|[stars t1]]; [reflexivity|] end.
  rewrite !run_bind.
  match goal with |- context [sum_from 0 ?vs t1] =>
    destruct (sum_from 0 vs t1) as [e|[forks t2]]; [reflexivity|] end.
  rewrite !tier3, !run_bind.
  rewrite (related_count_from (agree_on repository_fields) _ repos1 repos2); [reflexivity| |exact Hrel].
  intros x y t0 Hxy. rewrite !run_bind. unfold getitem.
  rewrite (agree_on_lookup _ _ _ "updated_at" Hxy) by (cbn; tauto). reflexivity.
Qed.

Lemma repository_reads_five_fields_witness :
  analyze_repository_quality Iso8601.iso8601 Examples.steady_clock Examples.twelve_repos 0%nat
  = analyze_repository_quality Iso8601.iso8601 Examples.steady_clock
      (map (fun r => <["archived" := VBool true]> r) Examples.twelve_repos) 0%nat.
Proof.
  apply (repository_reads_five_fields Iso8601.iso8601 Examples.steady_clock
           Examples.twelve_repos
           (map (fun r => <["archived" := VBool true]> r) Examples.twelve_repos) 0%nat).
  unfold Examples.twelve_repos. cbn [map].
  repeat (constructor;
          [unfold agree_on, repository_fields; repeat constructor; vm_compute; reflexivity|]).
  constructor.
Defined.

(** X20: filling in a blank text field of the profile adds exactly the
    points of that field (10 for name, bio, location and company, 15 for
    email, blog and twitter handle) and changes nothing else in the
    score. *)
Theorem filling_a_profile_field_adds_its_points :
  forall (user_data : dict) (k : string) (points : Z) (v : value) (t : nat),
    In (k, points) [("name", 10); ("bio", 10); ("location", 10); ("company", 10);
                    ("email", 15); ("blog", 15); ("twitter_username", 15)] ->
    user_ok user_data = true ->
    truthy (get user_data k) = false ->
    truthy v = true ->
    exists r r' : analysis,
      analyze_profile_completeness user_data t = inr (r, t) /\
      analyze_profile_completeness (<[k := v]> user_data) t = inr (r', t) /\
      score r' = score r + points.
Proof.
  intros user_data k points v t Hk Hok Hblank Hv.
  assert (Hok' : user_ok (<[k := v]> user_data) = true).
  { unfold user_ok, get_default in *. cbn [In] in Hk.
    repeat (destruct Hk as [[= <- <-]|Hk];
            [rewrite lookup_insert_ne by discriminate; exact Hok|]).
    destruct Hk. }
  pose proof (analyze_profile_completeness_outcome user_data t) as H.
  pose proof (analyze_profile_completeness_outcome (<[k := v]> user_data) t) as H'.
  destruct (analyze_profile_completeness user_data t) as [e|[r t1]];
    [destruct H as [_ H]; congruence|].
  destruct (analyze_profile_completeness (<[k := v]> user_data) t) as [e|[r' t2]];
    [destruct H' as [_ H']; congruence|].
  destruct H as (-> & _ & Hs & _), H' as (-> & _ & Hs' & _).
  exists r, r'. split; [reflexivity|]. split; [reflexivity|].
  rewrite Hs, Hs'. unfold profile_points, followers_points, field_points, get, get_default in *.
  cbn [In] in Hk.
  repeat (destruct Hk as [[= <- <-]|Hk];
          [repeat first [ rewrite lookup_insert_eq
                        | rewrite lookup_insert_ne by discriminate ];
           cbn [default from_option id]; rewrite Hv, Hblank; lia |]).
  destruct Hk.
Qed.

Lemma filling_a_profile_field_adds_its_points_witness :
  exists r r' : analysis,
    analyze_profile_completeness Examples.named_profile 0%nat = inr (r, 0%nat) /\
    analyze_profile_completeness (<["blog" := VStr "https://example.org"]> Examples.named_profile)
      0%nat = inr (r', 0%nat) /\
    score r' = score r + 15.
Proof.
  apply (filling_a_profile_field_adds_its_points Examples.named_profile "blog" 15
           (VStr "https://example.org") 0%nat).
  - cbn. tauto.
  - reflexivity.
  - reflexivity.
  - reflexivity.
Defined.

(** ** Further properties: the strength meter *)

Lemma meter_drawn_exactly_100 : Meter.drawn_exactly_upto 100 = true.
Proof. vm_compute. reflexivity. Qed.

Lemma meter_drawn_exactly_300 : Meter.drawn_exactly_upto 300 = true.
Proof. vm_compute. reflexivity. Qed.

Lemma meter_drawn_exactly_at (score max_score : Z) :
  max_score = 100 \/ max_score = 300 -> 0 <= score <= max_score ->
  Meter.drawn_exactly score max_score = true.
Proof.
  intros Hmax Hscore.
  assert (H : Meter.drawn_exactly_upto max_score = true).
  { destruct Hmax as [-> | ->]; [apply meter_drawn_exactly_100 | apply meter_drawn_exactly_300]. }
  unfold Meter.drawn_exactly_upto in H. rewrite forallb_forall in H.
  specialize (H (Z.to_nat score)). rewrite Z2Nat.id in H by lia.
  apply H. apply in_seq. lia.
Qed.

(** On the scores and maxima of [main] the float computation draws the
    exact colour and the exact bar. *)
Lemma meter_run (score max_score : Z) (title : string) :
  max_score = 100 \/ max_score = 300 -> 0 <= score <= max_score ->
  exists shown : Q,
    Meter.display_strength_meter score max_score title
    = inr [ [Text NL; Text Colors.BOLD; Text title; Text Colors.ENDC];
            [Text (Meter.exact_color score max_score); Text "[";
             Text (Meter.exact_bar score max_score);
             Text "] "; Fmt1f shown; Text "% ("; Fmt (VInt score); Text "/";
             Fmt (VInt max_score); Text ")"; Text Colors.ENDC] ].
Proof.
  intros Hmax Hscore.
  pose proof (meter_drawn_exactly_at score max_score Hmax Hscore) as H.
  unfold Meter.drawn_exactly, Meter.display_strength_meter in H.
  unfold Meter.display_strength_meter.
  destruct (Meter.truediv score max_score) as [e|ratio]; [discriminate|].
  cbv zeta in *.
  destruct (Meter.int_of_float _) as [e|filled_length]; [discriminate|].
  cbn [Meter.drawn] in H. apply andb_prop in H as [Hcolor Hbar].
  apply String.eqb_eq in Hcolor, Hbar.
  eexists. rewrite Hcolor, Hbar. reflexivity.
Qed.

(** The meter never divides by zero in [main], but it would with a zero
    maximum; and the exactness of the bar is a matter of the maximum: of
    40 points, 23 draw 22 cells. *)
Example meter_edge_cases :
  (forall score title, Meter.display_strength_meter score 0 title = inl Meter.ZeroDivisionError) /\
  option_map snd
    (match Meter.display_strength_meter 23 40 "" with
     | inr lines => Meter.drawn lines
     | inl _ => None
     end)
  = Some (Meter.str_mul "█" 22 +:+ Meter.str_mul "░" 18).
Proof. split; [intros score title|]; reflexivity. Qed.

(** X17: for the two maxima [main] passes, 100 and 300, and every score
    from 0 to the maximum, the meter computes on floats what exact
    arithmetic gives.  It returns two lines; the bar has
    [40 * score / max_score] (rounded down) full cells out of 40; the
    colour is green from 80 percent, cyan from 60, yellow from 40 and red
    below. *)
Theorem meter_is_exact_for_main :
  forall (score max_score : Z) (title : string),
    max_score = 100 \/ max_score = 300 ->
    0 <= score <= max_score ->
    let filled := 40 * score / max_score in
    let color :=
      if 80 * max_score <=? 100 * score then Colors.OKGREEN
      else if 60 * max_score <=? 100 * score then Colors.OKCYAN
      else if 40 * max_score <=? 100 * score then Colors.WARNING
      else Colors.FAIL in
    0 <= filled <= 40 /\
    exists shown : Q,
      Meter.display_strength_meter score max_score title
      = inr [ [Text NL; Text Colors.BOLD; Text title; Text Colors.ENDC];
              [Text color; Text "[";
               Text (Meter.str_mul "█" filled +:+ Meter.str_mul "░" (40 - filled));
               Text "] "; Fmt1f shown; Text "% ("; Fmt (VInt score); Text "/";
               Fmt (VInt max_score); Text ")"; Text Colors.ENDC] ].
Proof.
  intros score max_score title Hmax Hscore. cbv zeta. split.
  - assert (0 < max_score) by lia. split.
    + apply Z.div_pos; lia.
    + apply Z.div_le_upper_bound; lia.
  - destruct (meter_run score max_score title Hmax Hscore) as [shown Hrun].
    exists shown. rewrite Hrun. unfold Meter.exact_color, Meter.exact_bar. reflexivity.
Qed.

Lemma meter_is_exact_for_main_witness :
  exists shown : Q,
    Meter.display_strength_meter 195 300 "OVERALL"
    = inr [ [Text NL; Text Colors.BOLD; Text "OVERALL"; Text Colors.ENDC];
            [Text Colors.OKCYAN; Text "[";
             Text (Meter.str_mul "█" 26 +:+ Meter.str_mul "░" 14);
             Text "] "; Fmt1f shown; Text "% ("; Fmt (VInt 195); Text "/";
             Fmt (VInt 300); Text ")"; Text Colors.ENDC] ].
Proof.
  destruct (meter_is_exact_for_main 195 300 "OVERALL") as [_ H].
  - right. reflexivity.
  - lia.
  - exact H.
Defined.



(** ** Witness for the binary64 cross-check *)

Lemma binary64_decisions_exact_witness :
  Binary64.doc_decisions 10 12 = Binary64.exact_doc_decisions 10 12 /\
  Binary64.recency_decisions 7 12 = Binary64.exact_recency_decisions 7 12.
Proof.
  split.
  - apply (binary64_decisions_exact 10 12); lia.
  - apply (binary64_decisions_exact 7 12); lia.
Defined.
